(** * awswrangler.emr: the EMR request builder and step submission

    A shallow embedding of [src/awswrangler/emr.py].  Python values are
    an inductive type of dynamically typed data, dictionaries are
    insertion-ordered association lists with string keys, exceptions are
    an error monad, and the boto3 client is an explicit world-passing
    service whose calls are recorded. *)

From Stdlib Require Import String Ascii ZArith List Bool.
Import ListNotations.
Local Open Scope string_scope.
Local Open Scope list_scope.
Local Open Scope Z_scope.

Module EMR.

(** ** Python values *)

(** The values that flow through the module: [None], booleans, unbounded
    integers, strings, lists, dictionaries with string keys, and opaque
    objects (the [self] that [locals()] captures). *)
Local Unset Elimination Schemes.
Inductive value : Type :=
| VNone : value
| VBool (b : bool) : value
| VInt (z : Z) : value
| VStr (s : string) : value
| VList (l : list value) : value
| VDict (d : list (string * value)) : value
| VObj : value.
Local Set Elimination Schemes.

Definition py_dict : Type := list (string * value).

(** Exceptions the embedded code can raise. *)
Inductive exn : Type :=
| KeyError (k : string)
| IndexError
| TypeError
| AttributeError
| ValueError
| ServiceError (msg : string).

Inductive result (A : Type) : Type :=
| Ok (a : A)
| Raise (e : exn).
Arguments Ok {A} a.
Arguments Raise {A} e.

(** Sequencing: the first exception raised ends the computation.  The
    notation stands for the [match] itself, so a statement whose result
    is known reduces by one iota step. *)
Notation "x <- m ;; k" :=
  (match m with
   | Ok x => k
   | Raise e => Raise e
   end)
  (at level 61, m at next level, right associativity).

(** ** Dictionary primitives *)

(** [d.get(k)]: the first binding of [k]. *)
Fixpoint dict_get (k : string) (d : py_dict) : option value :=
  match d with
  | [] => None
  | (k', v) :: d' => if String.eqb k k' then Some v else dict_get k d'
  end.

(** [d[k] = v]: overwrite in place when [k] is bound, append otherwise
    (Python dictionaries keep insertion order). *)
Fixpoint dict_set (k : string) (v : value) (d : py_dict) : py_dict :=
  match d with
  | [] => [(k, v)]
  | (k', v') :: d' =>
      if String.eqb k k' then (k', v) :: d' else (k', v') :: dict_set k v d'
  end.

(** [pars[k]] on a keyword dictionary. *)
Definition dict_getitem (d : py_dict) (k : string) : result value :=
  match dict_get k d with
  | Some v => Ok v
  | None => Raise (KeyError k)
  end.

(** [v[k]] with a string subscript. *)
Definition getitem (v : value) (k : string) : result value :=
  match v with
  | VDict d => dict_getitem d k
  | _ => Raise TypeError
  end.

(** [v[k] = x]. *)
Definition setitem (v : value) (k : string) (x : value) : result value :=
  match v with
  | VDict d => Ok (VDict (dict_set k x d))
  | _ => Raise TypeError
  end.

(** [v[k1][k2] = x]: the inner dictionary is reached through [v] and is
    updated in place, so the change is visible through [v]. *)
Definition setitem_in (v : value) (k1 k2 : string) (x : value) : result value :=
  inner <- getitem v k1 ;;
  inner' <- setitem inner k2 x ;;
  setitem v k1 inner'.

(** [l.append(x)]. *)
Definition list_append (l : value) (x : value) : result value :=
  match l with
  | VList xs => Ok (VList (xs ++ [x]))
  | _ => Raise AttributeError
  end.

(** [v[k1][k2].append(x)], again through the shared inner objects. *)
Definition append_in (v : value) (k1 k2 : string) (x : value) : result value :=
  inner <- getitem v k1 ;;
  l <- getitem inner k2 ;;
  l' <- list_append l x ;;
  inner' <- setitem inner k2 l' ;;
  setitem v k1 inner'.

(** [v[i]] with an integer subscript [i >= 0]. *)
Definition getindex (v : value) (i : nat) : result value :=
  match v with
  | VList xs =>
      match nth_error xs i with
      | Some x => Ok x
      | None => Raise IndexError
      end
  | VStr s =>
      match String.get i s with
      | Some c => Ok (VStr (String c EmptyString))
      | None => Raise IndexError
      end
  | VDict _ => Raise (KeyError "0")
  | _ => Raise TypeError
  end.

(** Truth value testing, as [if v:] does it. *)
Definition truthy (v : value) : bool :=
  match v with
  | VNone => false
  | VBool b => b
  | VInt z => negb (z =? 0)
  | VStr s => negb (String.eqb s "")
  | VList l => match l with [] => false | _ => true end
  | VDict d => match d with [] => false | _ => true end
  | VObj => true
  end.

(** [v is not None]. *)
Definition is_not_none (v : value) : bool :=
  match v with
  | VNone => false
  | _ => true
  end.

(** [a > b]: defined between numbers ([bool] is a subtype of [int]),
    a [TypeError] between a number and anything else. *)
Definition as_int (v : value) : option Z :=
  match v with
  | VInt z => Some z
  | VBool b => Some (if b then 1 else 0)
  | _ => None
  end.

Definition py_gt (a b : value) : result bool :=
  match as_int a, as_int b with
  | Some x, Some y => Ok (y <? x)
  | _, _ => Raise TypeError
  end.

(** The items a [for x in v] visits. *)
Definition py_iter (v : value) : result (list value) :=
  match v with
  | VList l => Ok l
  | VStr s => Ok (map (fun c => VStr (String c EmptyString)) (list_ascii_of_string s))
  | VDict d => Ok (map (fun kv => VStr (fst kv)) d)
  | _ => Raise TypeError
  end.

(** ** The configuration record

    The keyword parameters of [create_cluster], with the types of its
    signature: [str] as [string], [int] as [Z], [Optional[...]] as
    [option]. *)
Record config : Type := {
  cluster_name : string;
  logging_s3_path : string;
  emr_release : string;
  subnet_id : string;
  emr_ec2_role : string;
  emr_role : string;
  instance_type_master : string;
  instance_type_core : string;
  instance_type_task : string;
  instance_ebs_size_master : Z;
  instance_ebs_size_core : Z;
  instance_ebs_size_task : Z;
  instance_num_on_demand_master : Z;
  instance_num_on_demand_core : Z;
  instance_num_on_demand_task : Z;
  instance_num_spot_master : Z;
  instance_num_spot_core : Z;
  instance_num_spot_task : Z;
  spot_bid_percentage_of_on_demand_master : Z;
  spot_bid_percentage_of_on_demand_core : Z;
  spot_bid_percentage_of_on_demand_task : Z;
  spot_provisioning_timeout_master : Z;
  spot_provisioning_timeout_core : Z;
  spot_provisioning_timeout_task : Z;
  spot_timeout_to_on_demand_master : bool;
  spot_timeout_to_on_demand_core : bool;
  spot_timeout_to_on_demand_task : bool;
  python3 : bool;
  spark_glue_catalog : bool;
  hive_glue_catalog : bool;
  presto_glue_catalog : bool;
  bootstraps_paths : option (list string);
  debugging : bool;
  applications : option (list string);
  visible_to_all_users : bool;
  key_pair_name : option string;
  security_group_master : option string;
  security_groups_master_additional : option (list string);
  security_group_slave : option string;
  security_groups_slave_additional : option (list string);
  security_group_service_access : option string
}.

(** Typed arguments as Python values. *)
Definition of_opt_str (o : option string) : value :=
  match o with
  | Some s => VStr s
  | None => VNone
  end.

Definition of_str_list (l : list string) : value := VList (map VStr l).

Definition of_opt_list (o : option (list string)) : value :=
  match o with
  | Some l => of_str_list l
  | None => VNone
  end.

(** [locals()] at the top of [create_cluster]: [self] and every
    parameter, in declaration order. *)
Definition create_cluster_locals (c : config) : py_dict :=
  [ ("self", VObj);
    ("cluster_name", VStr (cluster_name c));
    ("logging_s3_path", VStr (logging_s3_path c));
    ("emr_release", VStr (emr_release c));
    ("subnet_id", VStr (subnet_id c));
    ("emr_ec2_role", VStr (emr_ec2_role c));
    ("emr_role", VStr (emr_role c));
    ("instance_type_master", VStr (instance_type_master c));
    ("instance_type_core", VStr (instance_type_core c));
    ("instance_type_task", VStr (instance_type_task c));
    ("instance_ebs_size_master", VInt (instance_ebs_size_master c));
    ("instance_ebs_size_core", VInt (instance_ebs_size_core c));
    ("instance_ebs_size_task", VInt (instance_ebs_size_task c));
    ("instance_num_on_demand_master", VInt (instance_num_on_demand_master c));
    ("instance_num_on_demand_core", VInt (instance_num_on_demand_core c));
    ("instance_num_on_demand_task", VInt (instance_num_on_demand_task c));
    ("instance_num_spot_master", VInt (instance_num_spot_master c));
    ("instance_num_spot_core", VInt (instance_num_spot_core c));
    ("instance_num_spot_task", VInt (instance_num_spot_task c));
    ("spot_bid_percentage_of_on_demand_master", VInt (spot_bid_percentage_of_on_demand_master c));
    ("spot_bid_percentage_of_on_demand_core", VInt (spot_bid_percentage_of_on_demand_core c));
    ("spot_bid_percentage_of_on_demand_task", VInt (spot_bid_percentage_of_on_demand_task c));
    ("spot_provisioning_timeout_master", VInt (spot_provisioning_timeout_master c));
    ("spot_provisioning_timeout_core", VInt (spot_provisioning_timeout_core c));
    ("spot_provisioning_timeout_task", VInt (spot_provisioning_timeout_task c));
    ("spot_timeout_to_on_demand_master", VBool (spot_timeout_to_on_demand_master c));
    ("spot_timeout_to_on_demand_core", VBool (spot_timeout_to_on_demand_core c));
    ("spot_timeout_to_on_demand_task", VBool (spot_timeout_to_on_demand_task c));
    ("python3", VBool (python3 c));
    ("spark_glue_catalog", VBool (spark_glue_catalog c));
    ("hive_glue_catalog", VBool (hive_glue_catalog c));
    ("presto_glue_catalog", VBool (presto_glue_catalog c));
    ("bootstraps_paths", of_opt_list (bootstraps_paths c));
    ("debugging", VBool (debugging c));
    ("applications", of_opt_list (applications c));
    ("visible_to_all_users", VBool (visible_to_all_users c));
    ("key_pair_name", of_opt_str (key_pair_name c));
    ("security_group_master", of_opt_str (security_group_master c));
    ("security_groups_master_additional", of_opt_list (security_groups_master_additional c));
    ("security_group_slave", of_opt_str (security_group_slave c));
    ("security_groups_slave_additional", of_opt_list (security_groups_slave_additional c));
    ("security_group_service_access", of_opt_str (security_group_service_access c)) ].

(** ** The request builder *)

(** [a or b]: [b] is evaluated only when [a] is falsy. *)
Definition py_or (a : value) (b : result value) : result value :=
  if truthy a then Ok a else b.

(** [v[k].append(x)]. *)
Definition append_at (v : value) (k : string) (x : value) : result value :=
  l <- getitem v k ;;
  l' <- list_append l x ;;
  setitem v k l'.

(** The statements of [EMR._build_cluster_args] that build the document
    (emr.py, lines 24 to 239), on the keyword dictionary [pars], and its
    [return args].  The local [args] is threaded through the statements
    in source order; every subscript of [pars] is evaluated where the
    source evaluates it.  The log line that stands between the last
    statement and the return can raise: it is [json_dumps] below, and
    the function as it is called is [_build_cluster_args_logged]. *)
Definition _build_cluster_args (pars : py_dict) : result value :=
  let get := dict_getitem pars in
  p_name <- get "cluster_name" ;;
  p_log <- get "logging_s3_path" ;;
  p_release <- get "emr_release" ;;
  p_visible <- get "visible_to_all_users" ;;
  p_ec2_role <- get "emr_ec2_role" ;;
  p_role <- get "emr_role" ;;
  p_subnet <- get "subnet_id" ;;
  let args : value :=
    VDict [ ("Name", p_name);
            ("LogUri", p_log);
            ("ReleaseLabel", p_release);
            ("VisibleToAllUsers", p_visible);
            ("JobFlowRole", p_ec2_role);
            ("ServiceRole", p_role);
            ("Instances",
             VDict [ ("KeepJobFlowAliveWhenNoSteps", VBool true);
                     ("TerminationProtected", VBool false);
                     ("Ec2SubnetId", p_subnet);
                     ("InstanceFleets", VList []) ]) ] in

  (* EC2 Key Pair *)
  c <- get "key_pair_name" ;;
  args <- (if is_not_none c
           then x <- get "key_pair_name" ;;
                setitem_in args "Instances" "Ec2KeyName" x
           else Ok args) ;;

  (* Security groups *)
  c <- get "security_group_master" ;;
  args <- (if is_not_none c
           then x <- get "security_group_master" ;;
                setitem_in args "Instances" "EmrManagedMasterSecurityGroup" x
           else Ok args) ;;
  c <- get "security_groups_master_additional" ;;
  args <- (if is_not_none c
           then x <- get "security_groups_master_additional" ;;
                setitem_in args "Instances" "AdditionalMasterSecurityGroups" x
           else Ok args) ;;
  c <- get "security_group_slave" ;;
  args <- (if is_not_none c
           then x <- get "security_group_slave" ;;
                setitem_in args "Instances" "EmrManagedSlaveSecurityGroup" x
           else Ok args) ;;
  c <- get "security_groups_slave_additional" ;;
  args <- (if is_not_none c
           then x <- get "security_groups_slave_additional" ;;
                setitem_in args "Instances" "AdditionalSlaveSecurityGroups" x
           else Ok args) ;;
  c <- get "security_group_service_access" ;;
  args <- (if is_not_none c
           then x <- get "security_group_service_access" ;;
                setitem_in args "Instances" "ServiceAccessSecurityGroup" x
           else Ok args) ;;

  (* Configurations *)
  c <- (a <- get "python3" ;;
        py_or a (a <- get "spark_glue_catalog" ;;
        py_or a (a <- get "hive_glue_catalog" ;;
        py_or a (get "presto_glue_catalog")))) ;;
  args <- (if truthy c
           then
             args <- setitem args "Configurations" (VList []) ;;
             c <- get "python3" ;;
             args <- (if truthy c
                      then append_at args "Configurations"
                             (VDict [ ("Classification", VStr "spark-env");
                                      ("Properties", VDict []);
                                      ("Configurations",
                                       VList [ VDict [ ("Classification", VStr "export");
                                                       ("Properties",
                                                        VDict [ ("PYSPARK_PYTHON", VStr "/usr/bin/python3") ]);
                                                       ("Configurations", VList []) ] ]) ])
                      else Ok args) ;;
             c <- get "spark_glue_catalog" ;;
             args <- (if truthy c
                      then append_at args "Configurations"
                             (VDict [ ("Classification", VStr "spark-hive-site");
                                      ("Properties",
                                       VDict [ ("hive.metastore.client.factory.class",
                                                VStr "com.amazonaws.glue.catalog.metastore.AWSGlueDataCatalogHiveClientFactory") ]);
                                      ("Configurations", VList []) ])
                      else Ok args) ;;
             c <- get "hive_glue_catalog" ;;
             args <- (if truthy c
                      then append_at args "Configurations"
                             (VDict [ ("Classification", VStr "hive-site");
                                      ("Properties",
                                       VDict [ ("hive.metastore.client.factory.class",
                                                VStr "com.amazonaws.glue.catalog.metastore.AWSGlueDataCatalogHiveClientFactory") ]);
                                      ("Configurations", VList []) ])
                      else Ok args) ;;
             c <- get "presto_glue_catalog" ;;
             if truthy c
             then append_at args "Configurations"
                    (VDict [ ("Classification", VStr "presto-connector-hive");
                             ("Properties",
                              VDict [ ("hive.metastore.glue.datacatalog.enabled", VStr "true") ]);
                             ("Configurations", VList []) ])
             else Ok args
           else Ok args) ;;

  (* Applications *)
  c <- get "applications" ;;
  args <- (if truthy c
           then
             it <- get "applications" ;;
             xs <- py_iter it ;;
             setitem args "Applications"
               (VList (map (fun x => VDict [ ("Name", x) ]) xs))
           else Ok args) ;;

  (* Bootstraps *)
  c <- get "bootstraps_paths" ;;
  args <- (if truthy c
           then
             it <- get "bootstraps_paths" ;;
             xs <- py_iter it ;;
             setitem args "BootstrapActions"
               (VList (map (fun x => VDict [ ("Name", x);
                                             ("ScriptBootstrapAction", VDict [ ("Path", x) ]) ]) xs))
           else Ok args) ;;

  (* Debugging *)
  c <- get "debugging" ;;
  args <- (if truthy c
           then
             setitem args "Steps"
               (VList [ VDict [ ("Name", VStr "Setup Hadoop Debugging");
                                ("ActionOnFailure", VStr "TERMINATE_CLUSTER");
                                ("HadoopJarStep",
                                 VDict [ ("Jar", VStr "command-runner.jar");
                                         ("Args", VList [ VStr "state-pusher-script" ]) ]) ] ])
           else Ok args) ;;

  (* Master Instance Fleet *)
  c <- get "spot_timeout_to_on_demand_master" ;;
  let timeout_action_master : value :=
    VStr (if truthy c then "SWITCH_TO_ON_DEMAND" else "TERMINATE_CLUSTER") in
  p_on_demand <- get "instance_num_on_demand_master" ;;
  p_spot <- get "instance_num_spot_master" ;;
  p_type <- get "instance_type_master" ;;
  p_bid <- get "spot_bid_percentage_of_on_demand_master" ;;
  p_ebs <- get "instance_ebs_size_master" ;;
  let fleet_master : value :=
    VDict [ ("Name", VStr "MASTER");
            ("InstanceFleetType", VStr "MASTER");
            ("TargetOnDemandCapacity", p_on_demand);
            ("TargetSpotCapacity", p_spot);
            ("InstanceTypeConfigs",
             VList [ VDict [ ("InstanceType", p_type);
                             ("WeightedCapacity", VInt 1);
                             ("BidPriceAsPercentageOfOnDemandPrice", p_bid);
                             ("EbsConfiguration",
                              VDict [ ("EbsBlockDeviceConfigs",
                                       VList [ VDict [ ("VolumeSpecification",
                                                        VDict [ ("SizeInGB", p_ebs);
                                                                ("VolumeType", VStr "gp2") ]);
                                                       ("VolumesPerInstance", VInt 1) ] ]);
                                      ("EbsOptimized", VBool true) ]) ] ]) ] in
  n <- get "instance_num_spot_master" ;;
  c <- py_gt n (VInt 0) ;;
  fleet_master <- (if c
                   then
                     p_timeout <- get "spot_provisioning_timeout_master" ;;
                     setitem fleet_master "LaunchSpecifications"
                       (VDict [ ("SpotSpecification",
                                 VDict [ ("TimeoutDurationMinutes", p_timeout);
                                         ("TimeoutAction", timeout_action_master) ]) ])
                   else Ok fleet_master) ;;
  args <- append_in args "Instances" "InstanceFleets" fleet_master ;;

  (* Core Instance Fleet *)
  c <- get "spot_timeout_to_on_demand_core" ;;
  let timeout_action_core : value :=
    VStr (if truthy c then "SWITCH_TO_ON_DEMAND" else "TERMINATE_CLUSTER") in
  p_on_demand <- get "instance_num_on_demand_core" ;;
  p_spot <- get "instance_num_spot_core" ;;
  p_type <- get "instance_type_core" ;;
  p_bid <- get "spot_bid_percentage_of_on_demand_core" ;;
  p_ebs <- get "instance_ebs_size_core" ;;
  let fleet_core : value :=
    VDict [ ("Name", VStr "CORE");
            ("InstanceFleetType", VStr "CORE");
            ("TargetOnDemandCapacity", p_on_demand);
            ("TargetSpotCapacity", p_spot);
            ("InstanceTypeConfigs",
             VList [ VDict [ ("InstanceType", p_type);
                             ("WeightedCapacity", VInt 1);
                             ("BidPriceAsPercentageOfOnDemandPrice", p_bid);
                             ("EbsConfiguration",
                              VDict [ ("EbsBlockDeviceConfigs",
                                       VList [ VDict [ ("VolumeSpecification",
                                                        VDict [ ("SizeInGB", p_ebs);
                                                                ("VolumeType", VStr "gp2") ]);
                                                       ("VolumesPerInstance", VInt 1) ] ]);
                                      ("EbsOptimized", VBool true) ]) ] ]) ] in
  n <- get "instance_num_spot_core" ;;
  c <- py_gt n (VInt 0) ;;
  fleet_core <- (if c
                 then
                   p_timeout <- get "spot_provisioning_timeout_core" ;;
                   setitem fleet_core "LaunchSpecifications"
                     (VDict [ ("SpotSpecification",
                               VDict [ ("TimeoutDurationMinutes", p_timeout);
                                       ("TimeoutAction", timeout_action_core) ]) ])
                 else Ok fleet_core) ;;
  args <- append_in args "Instances" "InstanceFleets" fleet_core ;;

  (* Task Instance Fleet *)
  c <- get "spot_timeout_to_on_demand_task" ;;
  let timeout_action_task : value :=
    VStr (if truthy c then "SWITCH_TO_ON_DEMAND" else "TERMINATE_CLUSTER") in
  p_on_demand <- get "instance_num_on_demand_task" ;;
  p_spot <- get "instance_num_spot_task" ;;
  p_type <- get "instance_type_task" ;;
  p_bid <- get "spot_bid_percentage_of_on_demand_task" ;;
  p_ebs <- get "instance_ebs_size_task" ;;
  let fleet_task : value :=
    VDict [ ("Name", VStr "TASK");
            ("InstanceFleetType", VStr "TASK");
            ("TargetOnDemandCapacity", p_on_demand);
            ("TargetSpotCapacity", p_spot);
            ("InstanceTypeConfigs",
             VList [ VDict [ ("InstanceType", p_type);
                             ("WeightedCapacity", VInt 1);
                             ("BidPriceAsPercentageOfOnDemandPrice", p_bid);
                             ("EbsConfiguration",
                              VDict [ ("EbsBlockDeviceConfigs",
                                       VList [ VDict [ ("VolumeSpecification",
                                                        VDict [ ("SizeInGB", p_ebs);
                                                                ("VolumeType", VStr "gp2") ]);
                                                       ("VolumesPerInstance", VInt 1) ] ]);
                                      ("EbsOptimized", VBool true) ]) ] ]) ] in
  n <- get "instance_num_spot_task" ;;
  c <- py_gt n (VInt 0) ;;
  fleet_task <- (if c
                 then
                   p_timeout <- get "spot_provisioning_timeout_task" ;;
                   setitem fleet_task "LaunchSpecifications"
                     (VDict [ ("SpotSpecification",
                               VDict [ ("TimeoutDurationMinutes", p_timeout);
                                       ("TimeoutAction", timeout_action_task) ]) ])
                 else Ok fleet_task) ;;
  args <- append_in args "Instances" "InstanceFleets" fleet_task ;;

  Ok args.

(** ** The log line of the builder *)

(** The interpreter refuses to write an integer of more than 4300 digits
    as text (sys.int_max_str_digits, in 3.11 and in the security
    releases of the versions before it). *)
Definition int_max_str_digits : Z := 4300.

(** The smallest integer with one digit too many. *)
Definition int_str_bound : Z := 10 ^ int_max_str_digits.

Definition int_to_str_ok (z : Z) : bool :=
  Z.abs z <? int_str_bound.

(** Every integer inside a value can be written. *)
Fixpoint json_ints_ok (v : value) : bool :=
  match v with
  | VInt z => int_to_str_ok z
  | VList l => forallb json_ints_ok l
  | VDict d => forallb (fun kv => json_ints_ok (snd kv)) d
  | _ => true
  end.

(** [json.dumps(v, default=str, indent=4)], as far as raising goes: the
    text itself only reaches the log.  Keys are strings, values have no
    cycles and an object goes through [str], so the one failure on
    [value] is an integer too long to write, a [ValueError]. *)
Definition json_dumps (v : value) : result unit :=
  if json_ints_ok v then Ok tt else Raise ValueError.

(** [EMR._build_cluster_args] as it is called: the statements of
    [_build_cluster_args], then the log line of emr.py line 241, whose
    text [json.dumps] builds before [logger.info] is entered, then the
    return. *)
Definition _build_cluster_args_logged (pars : py_dict) : result value :=
  args <- _build_cluster_args pars ;;
  text <- json_dumps args ;;
  Ok args.

(** ** The EMR service client *)

(** The calls the module makes on its boto3 client, with their keyword
    arguments. *)
Inductive request : Type :=
| RunJobFlow (args : value)
| AddJobFlowSteps (JobFlowId : string) (Steps : list value).

(** [session.region_name], the only part of the session the module reads. *)
Record session : Type := { region_name : string }.

(** [s.split(sep)] for a separator [sep] of one character and no
    [maxsplit]: the text is cut at every occurrence of [sep], so [n]
    occurrences give [n + 1] pieces, empty ones included. *)
Fixpoint str_split (sep : ascii) (s : string) : list string :=
  match s with
  | EmptyString => [EmptyString]
  | String ch rest =>
      if Ascii.eqb ch sep then EmptyString :: str_split sep rest
      else match str_split sep rest with
           | w :: ws => String ch w :: ws
           | [] => [String ch EmptyString]
           end
  end.

Section Client.
(** The remote service: a state [world] nobody else sees, and an answer
    (or an exception) to every request. *)
Context {world : Type}.
Variable client_emr : request -> world -> result value * world.

(** The state of a run: the remote world and the requests sent so far. *)
Definition state : Type := (world * list request)%type.

Definition io (A : Type) : Type := state -> result A * state.

Definition io_bind {A B : Type} (m : io A) (k : A -> io B) : io B :=
  fun st =>
    match m st with
    | (Ok a, st') => k a st'
    | (Raise e, st') => (Raise e, st')
    end.

Definition lift {A : Type} (r : result A) : io A := fun st => (r, st).

Definition call (r : request) : io value :=
  fun st =>
    let (res, w') := client_emr r (fst st) in
    (res, (w', snd st ++ [r])).

(** The instance: [self._session]; [self._client_emr] is the section
    variable. *)
Record emr_object : Type := { _session : session }.

(** [EMR.create_cluster]: [locals()] goes to the builder, the document
    to [run_job_flow]. *)
Definition create_cluster (self : emr_object) (c : config) : io value :=
  io_bind (lift (_build_cluster_args_logged (create_cluster_locals c))) (fun args =>
  io_bind (call (RunJobFlow args)) (fun response =>
  lift (getitem response "JobFlowId"))).

(** [EMR.submit_step].  [action_on_failure] is [None] when the caller
    leaves the argument out. *)
Definition submit_step (self : emr_object) (cluster_id name cmd : string)
    (action_on_failure : option string) : io value :=
  let action_on_failure : string :=
    match action_on_failure with
    | Some a => a
    | None => "CONTINUE"
    end in
  let region : string := region_name (_session self) in
  let step : value :=
    VDict [ ("Name", VStr name);
            ("ActionOnFailure", VStr action_on_failure);
            ("HadoopJarStep",
             VDict [ ("Jar",
                      VStr ("s3://" ++ region
                              ++ ".elasticmapreduce/libs/script-runner/script-runner.jar")%string);
                     ("Args", VList (map VStr (str_split " " cmd))) ]) ] in
  io_bind (call (AddJobFlowSteps cluster_id [step])) (fun response =>
  lift (ids <- getitem response "StepIds" ;; getindex ids 0)).
End Client.

(** ** Reading a document *)

Definition field (k : string) (v : value) : option value :=
  match v with
  | VDict d => dict_get k d
  | _ => None
  end.

Inductive sel : Type :=
| Key (k : string)
| Idx (i : nat).

(** [lookup [Key "a"; Idx 0; Key "b"] v] is [v["a"][0]["b"]], when it
    exists. *)
Fixpoint lookup (p : list sel) (v : value) : option value :=
  match p with
  | [] => Some v
  | Key k :: p' =>
      match field k v with
      | Some v' => lookup p' v'
      | None => None
      end
  | Idx i :: p' =>
      match v with
      | VList l =>
          match nth_error l i with
          | Some v' => lookup p' v'
          | None => None
          end
      | _ => None
      end
  end.

(** The three fleet roles and the inputs that belong to each. *)
Inductive role : Type := MASTER | CORE | TASK.

Definition role_name (r : role) : string :=
  match r with
  | MASTER => "MASTER"
  | CORE => "CORE"
  | TASK => "TASK"
  end.

Definition instance_type (r : role) (c : config) : string :=
  match r with
  | MASTER => instance_type_master c
  | CORE => instance_type_core c
  | TASK => instance_type_task c
  end.

Definition instance_ebs_size (r : role) (c : config) : Z :=
  match r with
  | MASTER => instance_ebs_size_master c
  | CORE => instance_ebs_size_core c
  | TASK => instance_ebs_size_task c
  end.

Definition instance_num_on_demand (r : role) (c : config) : Z :=
  match r with
  | MASTER => instance_num_on_demand_master c
  | CORE => instance_num_on_demand_core c
  | TASK => instance_num_on_demand_task c
  end.

Definition instance_num_spot (r : role) (c : config) : Z :=
  match r with
  | MASTER => instance_num_spot_master c
  | CORE => instance_num_spot_core c
  | TASK => instance_num_spot_task c
  end.

Definition spot_bid_percentage_of_on_demand (r : role) (c : config) : Z :=
  match r with
  | MASTER => spot_bid_percentage_of_on_demand_master c
  | CORE => spot_bid_percentage_of_on_demand_core c
  | TASK => spot_bid_percentage_of_on_demand_task c
  end.

Definition spot_provisioning_timeout (r : role) (c : config) : Z :=
  match r with
  | MASTER => spot_provisioning_timeout_master c
  | CORE => spot_provisioning_timeout_core c
  | TASK => spot_provisioning_timeout_task c
  end.

Definition spot_timeout_to_on_demand (r : role) (c : config) : bool :=
  match r with
  | MASTER => spot_timeout_to_on_demand_master c
  | CORE => spot_timeout_to_on_demand_core c
  | TASK => spot_timeout_to_on_demand_task c
  end.

(** The fleet entry of a role: the first element of
    [doc["Instances"]["InstanceFleets"]] whose [InstanceFleetType] is the
    role's name. *)
Definition has_fleet_type (r : role) (fleet : value) : bool :=
  match field "InstanceFleetType" fleet with
  | Some (VStr s) => String.eqb s (role_name r)
  | _ => false
  end.

Definition fleet_entry (r : role) (doc : value) : option value :=
  match lookup [Key "Instances"; Key "InstanceFleets"] doc with
  | Some (VList fleets) => find (has_fleet_type r) fleets
  | _ => None
  end.

(** ** The closed form of the document

    What the builder returns, written as one expression: optional keys
    are segments that are empty when their test fails.  The theorems of
    the next part prove the embedded code equal to it. *)

Definition opt_entry (b : bool) (k : string) (v : value) : py_dict :=
  if b then [(k, v)] else [].

Definition opt_item (b : bool) (v : value) : list value :=
  if b then [v] else [].

(** The shape [args] keeps from its first assignment on: seven fixed
    keys, with the fleets, the optional keys of [Instances] and the
    optional top-level keys as the only parts that grow. *)
Definition args_shape (h1 h2 h3 h4 h5 h6 sn : value)
    (fleets : list value) (itail rest : py_dict) : value :=
  VDict (("Name", h1) :: ("LogUri", h2) :: ("ReleaseLabel", h3) ::
         ("VisibleToAllUsers", h4) :: ("JobFlowRole", h5) :: ("ServiceRole", h6) ::
         ("Instances",
          VDict (("KeepJobFlowAliveWhenNoSteps", VBool true) ::
                 ("TerminationProtected", VBool false) ::
                 ("Ec2SubnetId", sn) ::
                 ("InstanceFleets", VList fleets) :: itail)) :: rest).

Definition fixed_top : list string :=
  ["Name"; "LogUri"; "ReleaseLabel"; "VisibleToAllUsers"; "JobFlowRole";
   "ServiceRole"; "Instances"].

Definition fixed_inst : list string :=
  ["KeepJobFlowAliveWhenNoSteps"; "TerminationProtected"; "Ec2SubnetId";
   "InstanceFleets"].

(** The four catalog and interpreter toggles, in the order the builder
    tests them. *)
Inductive toggle : Type := Python3 | SparkGlue | HiveGlue | PrestoGlue.

Definition toggle_on (c : config) (t : toggle) : bool :=
  match t with
  | Python3 => python3 c
  | SparkGlue => spark_glue_catalog c
  | HiveGlue => hive_glue_catalog c
  | PrestoGlue => presto_glue_catalog c
  end.

Definition toggle_eqb (a b : toggle) : bool :=
  match a, b with
  | Python3, Python3 | SparkGlue, SparkGlue
  | HiveGlue, HiveGlue | PrestoGlue, PrestoGlue => true
  | _, _ => false
  end.

Definition classification_entry (t : toggle) : value :=
  match t with
  | Python3 =>
      VDict [ ("Classification", VStr "spark-env");
              ("Properties", VDict []);
              ("Configurations",
               VList [ VDict [ ("Classification", VStr "export");
                               ("Properties",
                                VDict [ ("PYSPARK_PYTHON", VStr "/usr/bin/python3") ]);
                               ("Configurations", VList []) ] ]) ]
  | SparkGlue =>
      VDict [ ("Classification", VStr "spark-hive-site");
              ("Properties",
               VDict [ ("hive.metastore.client.factory.class",
                        VStr "com.amazonaws.glue.catalog.metastore.AWSGlueDataCatalogHiveClientFactory") ]);
              ("Configurations", VList []) ]
  | HiveGlue =>
      VDict [ ("Classification", VStr "hive-site");
              ("Properties",
               VDict [ ("hive.metastore.client.factory.class",
                        VStr "com.amazonaws.glue.catalog.metastore.AWSGlueDataCatalogHiveClientFactory") ]);
              ("Configurations", VList []) ]
  | PrestoGlue =>
      VDict [ ("Classification", VStr "presto-connector-hive");
              ("Properties",
               VDict [ ("hive.metastore.glue.datacatalog.enabled", VStr "true") ]);
              ("Configurations", VList []) ]
  end.

Definition classifications (c : config) : list value :=
  opt_item (python3 c) (classification_entry Python3)
  ++ opt_item (spark_glue_catalog c) (classification_entry SparkGlue)
  ++ opt_item (hive_glue_catalog c) (classification_entry HiveGlue)
  ++ opt_item (presto_glue_catalog c) (classification_entry PrestoGlue).

Definition any_toggle (c : config) : bool :=
  python3 c || (spark_glue_catalog c || (hive_glue_catalog c || presto_glue_catalog c)).

Definition list_of (o : option (list string)) : list string :=
  match o with
  | Some l => l
  | None => []
  end.

Definition application_entry (x : value) : value := VDict [ ("Name", x) ].

Definition bootstrap_action (x : value) : value :=
  VDict [ ("Name", x); ("ScriptBootstrapAction", VDict [ ("Path", x) ]) ].

Definition debugging_step : value :=
  VDict [ ("Name", VStr "Setup Hadoop Debugging");
          ("ActionOnFailure", VStr "TERMINATE_CLUSTER");
          ("HadoopJarStep",
           VDict [ ("Jar", VStr "command-runner.jar");
                   ("Args", VList [ VStr "state-pusher-script" ]) ]) ].

Definition spot_specification (r : role) (c : config) : value :=
  VDict [ ("SpotSpecification",
           VDict [ ("TimeoutDurationMinutes", VInt (spot_provisioning_timeout r c));
                   ("TimeoutAction",
                    VStr (if spot_timeout_to_on_demand r c
                          then "SWITCH_TO_ON_DEMAND" else "TERMINATE_CLUSTER")) ]) ].

Definition instance_type_config (r : role) (c : config) : value :=
  VDict [ ("InstanceType", VStr (instance_type r c));
          ("WeightedCapacity", VInt 1);
          ("BidPriceAsPercentageOfOnDemandPrice", VInt (spot_bid_percentage_of_on_demand r c));
          ("EbsConfiguration",
           VDict [ ("EbsBlockDeviceConfigs",
                    VList [ VDict [ ("VolumeSpecification",
                                     VDict [ ("SizeInGB", VInt (instance_ebs_size r c));
                                             ("VolumeType", VStr "gp2") ]);
                                    ("VolumesPerInstance", VInt 1) ] ]);
                   ("EbsOptimized", VBool true) ]) ].

Definition fleet_document (r : role) (c : config) : value :=
  VDict ([ ("Name", VStr (role_name r));
           ("InstanceFleetType", VStr (role_name r));
           ("TargetOnDemandCapacity", VInt (instance_num_on_demand r c));
           ("TargetSpotCapacity", VInt (instance_num_spot r c));
           ("InstanceTypeConfigs", VList [ instance_type_config r c ]) ]
         ++ opt_entry (0 <? instance_num_spot r c) "LaunchSpecifications"
              (spot_specification r c)).

Definition instances_optional (c : config) : py_dict :=
  opt_entry (is_not_none (of_opt_str (key_pair_name c)))
    "Ec2KeyName" (of_opt_str (key_pair_name c))
  ++ opt_entry (is_not_none (of_opt_str (security_group_master c)))
       "EmrManagedMasterSecurityGroup" (of_opt_str (security_group_master c))
  ++ opt_entry (is_not_none (of_opt_list (security_groups_master_additional c)))
       "AdditionalMasterSecurityGroups"
       (of_opt_list (security_groups_master_additional c))
  ++ opt_entry (is_not_none (of_opt_str (security_group_slave c)))
       "EmrManagedSlaveSecurityGroup" (of_opt_str (security_group_slave c))
  ++ opt_entry (is_not_none (of_opt_list (security_groups_slave_additional c)))
       "AdditionalSlaveSecurityGroups"
       (of_opt_list (security_groups_slave_additional c))
  ++ opt_entry (is_not_none (of_opt_str (security_group_service_access c)))
       "ServiceAccessSecurityGroup" (of_opt_str (security_group_service_access c)).

Definition top_optional (c : config) : py_dict :=
  opt_entry (any_toggle c) "Configurations" (VList (classifications c))
  ++ opt_entry (truthy (of_opt_list (applications c))) "Applications"
       (VList (map application_entry (map VStr (list_of (applications c)))))
  ++ opt_entry (truthy (of_opt_list (bootstraps_paths c))) "BootstrapActions"
       (VList (map bootstrap_action (map VStr (list_of (bootstraps_paths c)))))
  ++ opt_entry (debugging c) "Steps" (VList [ debugging_step ]).

Definition document_of (c : config) : value :=
  args_shape (VStr (cluster_name c)) (VStr (logging_s3_path c))
    (VStr (emr_release c)) (VBool (visible_to_all_users c))
    (VStr (emr_ec2_role c)) (VStr (emr_role c)) (VStr (subnet_id c))
    [ fleet_document MASTER c; fleet_document CORE c; fleet_document TASK c ]
    (instances_optional c) (top_optional c).

(** ** The optional sections of the document *)

Inductive optional_section : Type :=
| SecConfigurations
| SecApplications
| SecBootstrapActions
| SecSteps
| SecEc2KeyName
| SecMasterGroup
| SecMasterAdditionalGroups
| SecSlaveGroup
| SecSlaveAdditionalGroups
| SecServiceAccessGroup.

Definition section_path (s : optional_section) : list sel :=
  match s with
  | SecConfigurations => [Key "Configurations"]
  | SecApplications => [Key "Applications"]
  | SecBootstrapActions => [Key "BootstrapActions"]
  | SecSteps => [Key "Steps"]
  | SecEc2KeyName => [Key "Instances"; Key "Ec2KeyName"]
  | SecMasterGroup => [Key "Instances"; Key "EmrManagedMasterSecurityGroup"]
  | SecMasterAdditionalGroups => [Key "Instances"; Key "AdditionalMasterSecurityGroups"]
  | SecSlaveGroup => [Key "Instances"; Key "EmrManagedSlaveSecurityGroup"]
  | SecSlaveAdditionalGroups => [Key "Instances"; Key "AdditionalSlaveSecurityGroups"]
  | SecServiceAccessGroup => [Key "Instances"; Key "ServiceAccessSecurityGroup"]
  end.

Definition is_some {A : Type} (o : option A) : bool :=
  match o with
  | Some _ => true
  | None => false
  end.

Definition nonempty_list (o : option (list string)) : bool :=
  match o with
  | Some (_ :: _) => true
  | _ => false
  end.

Definition nonempty_string (o : option string) : bool :=
  match o with
  | Some s => negb (String.eqb s "")
  | None => false
  end.

(** The four sections the builder computes, against the six it copies
    from its input. *)
Definition computed_section (s : optional_section) : bool :=
  match s with
  | SecConfigurations | SecApplications | SecBootstrapActions | SecSteps => true
  | _ => false
  end.

(** When a section is present: a truthy test for the computed ones, a
    test against [None] for the copied ones. *)
Definition section_trigger (c : config) (s : optional_section) : bool :=
  match s with
  | SecConfigurations => any_toggle c
  | SecApplications => nonempty_list (applications c)
  | SecBootstrapActions => nonempty_list (bootstraps_paths c)
  | SecSteps => debugging c
  | SecEc2KeyName => is_some (key_pair_name c)
  | SecMasterGroup => is_some (security_group_master c)
  | SecMasterAdditionalGroups => is_some (security_groups_master_additional c)
  | SecSlaveGroup => is_some (security_group_slave c)
  | SecSlaveAdditionalGroups => is_some (security_groups_slave_additional c)
  | SecServiceAccessGroup => is_some (security_group_service_access c)
  end.

(** The input a copied section carries. *)
Definition section_input (c : config) (s : optional_section) : option value :=
  match s with
  | SecEc2KeyName => option_map VStr (key_pair_name c)
  | SecMasterGroup => option_map VStr (security_group_master c)
  | SecMasterAdditionalGroups => option_map of_str_list (security_groups_master_additional c)
  | SecSlaveGroup => option_map VStr (security_group_slave c)
  | SecSlaveAdditionalGroups => option_map of_str_list (security_groups_slave_additional c)
  | SecServiceAccessGroup => option_map VStr (security_group_service_access c)
  | _ => None
  end.

Definition null_or_empty (v : value) : bool :=
  match v with
  | VNone | VStr EmptyString | VList [] | VDict [] => true
  | _ => false
  end.

(** The specification's reading of the triggers: every list and string
    input has to be non-null and non-empty for its section to appear. *)
Definition stated_trigger (c : config) (s : optional_section) : bool :=
  match s with
  | SecConfigurations => any_toggle c
  | SecApplications => nonempty_list (applications c)
  | SecBootstrapActions => nonempty_list (bootstraps_paths c)
  | SecSteps => debugging c
  | SecEc2KeyName => nonempty_string (key_pair_name c)
  | SecMasterGroup => nonempty_string (security_group_master c)
  | SecMasterAdditionalGroups => nonempty_list (security_groups_master_additional c)
  | SecSlaveGroup => nonempty_string (security_group_slave c)
  | SecSlaveAdditionalGroups => nonempty_list (security_groups_slave_additional c)
  | SecServiceAccessGroup => nonempty_string (security_group_service_access c)
  end.

(** The specification's sentence on optional sections, word for word:
    present exactly when triggered, and never present with a null or
    empty value. *)
Definition stated_optional_sections (c : config) (doc : value) : Prop :=
  forall s : optional_section,
    (lookup (section_path s) doc <> None <-> stated_trigger c s = true) /\
    (forall v, lookup (section_path s) doc = Some v -> null_or_empty v = false).

(** ** Splitting on whitespace, as the specification words it *)

(** Space, tab, line feed, vertical tab, form feed, carriage return. *)
Definition is_whitespace (ch : ascii) : bool :=
  let n := nat_of_ascii ch in
  (Nat.eqb n 32 || (Nat.leb 9 n && Nat.leb n 13))%bool.

Definition starts_word (s : string) : bool :=
  match s with
  | String ch _ => negb (is_whitespace ch)
  | EmptyString => false
  end.

(** [s.split()] with no separator: the maximal runs of characters that
    are not whitespace. *)
Fixpoint split_whitespace (s : string) : list string :=
  match s with
  | EmptyString => []
  | String ch rest =>
      if is_whitespace ch then split_whitespace rest
      else if starts_word rest
           then match split_whitespace rest with
                | w :: ws => String ch w :: ws
                | [] => [String ch EmptyString]
                end
           else String ch EmptyString :: split_whitespace rest
  end.

Definition has_char (ch : ascii) (s : string) : bool :=
  existsb (Ascii.eqb ch) (list_ascii_of_string s).

(** A word: not empty and free of whitespace. *)
Definition word (w : string) : Prop :=
  w <> EmptyString /\
  forallb (fun ch => negb (is_whitespace ch)) (list_ascii_of_string w) = true.

(** ** The closed form of the submitted step *)

Definition step_document (self : emr_object) (name cmd : string)
    (action_on_failure : option string) : value :=
  VDict [ ("Name", VStr name);
          ("ActionOnFailure",
           VStr match action_on_failure with
                | Some a => a
                | None => "CONTINUE"
                end);
          ("HadoopJarStep",
           VDict [ ("Jar",
                    VStr ("s3://" ++ region_name (_session self)
                            ++ ".elasticmapreduce/libs/script-runner/script-runner.jar")%string);
                   ("Args", VList (map VStr (str_split " " cmd))) ]) ].

(** ** Sample inputs *)

Definition sample_config : config :=
  {| cluster_name := "wrangler";
     logging_s3_path := "s3://bucket/logs/";
     emr_release := "emr-5.27.0";
     subnet_id := "subnet-1";
     emr_ec2_role := "EMR_EC2_DefaultRole";
     emr_role := "EMR_DefaultRole";
     instance_type_master := "m5.xlarge";
     instance_type_core := "m5.2xlarge";
     instance_type_task := "c5.xlarge";
     instance_ebs_size_master := 50;
     instance_ebs_size_core := 60;
     instance_ebs_size_task := 70;
     instance_num_on_demand_master := 1;
     instance_num_on_demand_core := 2;
     instance_num_on_demand_task := 3;
     instance_num_spot_master := 0;
     instance_num_spot_core := 2;
     instance_num_spot_task := 4;
     spot_bid_percentage_of_on_demand_master := 100;
     spot_bid_percentage_of_on_demand_core := 90;
     spot_bid_percentage_of_on_demand_task := 80;
     spot_provisioning_timeout_master := 5;
     spot_provisioning_timeout_core := 6;
     spot_provisioning_timeout_task := 7;
     spot_timeout_to_on_demand_master := true;
     spot_timeout_to_on_demand_core := false;
     spot_timeout_to_on_demand_task := true;
     python3 := true;
     spark_glue_catalog := false;
     hive_glue_catalog := false;
     presto_glue_catalog := false;
     bootstraps_paths := Some ["s3://b/x.sh"];
     debugging := true;
     applications := Some ["Hadoop"; "Spark"];
     visible_to_all_users := true;
     key_pair_name := None;
     security_group_master := Some "sg-1";
     security_groups_master_additional := Some [];
     security_group_slave := None;
     security_groups_slave_additional := None;
     security_group_service_access := None |}.

(** [c] with the four toggles replaced. *)
Definition with_toggles (p s h q : bool) (c : config) : config :=
  {| cluster_name := cluster_name c;
     logging_s3_path := logging_s3_path c;
     emr_release := emr_release c;
     subnet_id := subnet_id c;
     emr_ec2_role := emr_ec2_role c;
     emr_role := emr_role c;
     instance_type_master := instance_type_master c;
     instance_type_core := instance_type_core c;
     instance_type_task := instance_type_task c;
     instance_ebs_size_master := instance_ebs_size_master c;
     instance_ebs_size_core := instance_ebs_size_core c;
     instance_ebs_size_task := instance_ebs_size_task c;
     instance_num_on_demand_master := instance_num_on_demand_master c;
     instance_num_on_demand_core := instance_num_on_demand_core c;
     instance_num_on_demand_task := instance_num_on_demand_task c;
     instance_num_spot_master := instance_num_spot_master c;
     instance_num_spot_core := instance_num_spot_core c;
     instance_num_spot_task := instance_num_spot_task c;
     spot_bid_percentage_of_on_demand_master := spot_bid_percentage_of_on_demand_master c;
     spot_bid_percentage_of_on_demand_core := spot_bid_percentage_of_on_demand_core c;
     spot_bid_percentage_of_on_demand_task := spot_bid_percentage_of_on_demand_task c;
     spot_provisioning_timeout_master := spot_provisioning_timeout_master c;
     spot_provisioning_timeout_core := spot_provisioning_timeout_core c;
     spot_provisioning_timeout_task := spot_provisioning_timeout_task c;
     spot_timeout_to_on_demand_master := spot_timeout_to_on_demand_master c;
     spot_timeout_to_on_demand_core := spot_timeout_to_on_demand_core c;
     spot_timeout_to_on_demand_task := spot_timeout_to_on_demand_task c;
     python3 := p;
     spark_glue_catalog := s;
     hive_glue_catalog := h;
     presto_glue_catalog := q;
     bootstraps_paths := bootstraps_paths c;
     debugging := debugging c;
     applications := applications c;
     visible_to_all_users := visible_to_all_users c;
     key_pair_name := key_pair_name c;
     security_group_master := security_group_master c;
     security_groups_master_additional := security_groups_master_additional c;
     security_group_slave := security_group_slave c;
     security_groups_slave_additional := security_groups_slave_additional c;
     security_group_service_access := security_group_service_access c |}.

(** A service that accepts every request and hands out fixed
    identifiers. *)
Definition sample_client (r : request) (w : unit) : result value * unit :=
  match r with
  | RunJobFlow _ => (Ok (VDict [ ("JobFlowId", VStr "j-1") ]), w)
  | AddJobFlowSteps _ _ => (Ok (VDict [ ("StepIds", VList [ VStr "s-1" ]) ]), w)
  end.

Definition sample_self : emr_object := {| _session := {| region_name := "us-east-1" |} |}.

(** The command line [a<TAB>b]. *)
Definition tab_command : string := String "a" (String "009" (String "b" EmptyString)).

(** ** Cluster and step queries *)

(** The three other calls the module makes on its client. *)
Inductive lifecycle_request : Type :=
| DescribeCluster (ClusterId : string)
| TerminateJobFlows (JobFlowIds : list string)
| DescribeStep (ClusterId StepId : string).

Section Lifecycle.
Context {world : Type}.
Variable client_emr : lifecycle_request -> world -> result value * world.

Definition lifecycle_state : Type := (world * list lifecycle_request)%type.

Definition lifecycle_call (r : lifecycle_request) (st : lifecycle_state)
    : result value * lifecycle_state :=
  let (res, w') := client_emr r (fst st) in
  (res, (w', snd st ++ [r])).

(** [EMR.get_cluster_state]. *)
Definition get_cluster_state (self : emr_object) (cluster_id : string)
    (st : lifecycle_state) : result value * lifecycle_state :=
  match lifecycle_call (DescribeCluster cluster_id) st with
  | (Ok response, st') =>
      ((cluster <- getitem response "Cluster" ;;
        status <- getitem cluster "Status" ;;
        getitem status "State"), st')
  | (Raise e, st') => (Raise e, st')
  end.

(** [EMR.terminate_cluster]: the response is logged and dropped, the
    method returns [None]. *)
Definition terminate_cluster (self : emr_object) (cluster_id : string)
    (st : lifecycle_state) : result value * lifecycle_state :=
  match lifecycle_call (TerminateJobFlows [cluster_id]) st with
  | (Ok response, st') => (Ok VNone, st')
  | (Raise e, st') => (Raise e, st')
  end.

(** [EMR.get_step_state]. *)
Definition get_step_state (self : emr_object) (cluster_id step_id : string)
    (st : lifecycle_state) : result value * lifecycle_state :=
  match lifecycle_call (DescribeStep cluster_id step_id) st with
  | (Ok response, st') =>
      ((step <- getitem response "Step" ;;
        status <- getitem step "Status" ;;
        getitem status "State"), st')
  | (Raise e, st') => (Raise e, st')
  end.
End Lifecycle.

(** ** Further notions for the properties below *)

(** The parameters of [create_cluster], the keys the builder reads. *)
Definition parameter_names : list string :=
  [ "cluster_name"; "logging_s3_path"; "emr_release"; "subnet_id";
    "emr_ec2_role"; "emr_role";
    "instance_type_master"; "instance_type_core"; "instance_type_task";
    "instance_ebs_size_master"; "instance_ebs_size_core"; "instance_ebs_size_task";
    "instance_num_on_demand_master"; "instance_num_on_demand_core";
    "instance_num_on_demand_task";
    "instance_num_spot_master"; "instance_num_spot_core"; "instance_num_spot_task";
    "spot_bid_percentage_of_on_demand_master"; "spot_bid_percentage_of_on_demand_core";
    "spot_bid_percentage_of_on_demand_task";
    "spot_provisioning_timeout_master"; "spot_provisioning_timeout_core";
    "spot_provisioning_timeout_task";
    "spot_timeout_to_on_demand_master"; "spot_timeout_to_on_demand_core";
    "spot_timeout_to_on_demand_task";
    "python3"; "spark_glue_catalog"; "hive_glue_catalog"; "presto_glue_catalog";
    "bootstraps_paths"; "debugging"; "applications"; "visible_to_all_users";
    "key_pair_name"; "security_group_master"; "security_groups_master_additional";
    "security_group_slave"; "security_groups_slave_additional";
    "security_group_service_access" ].

(** The parameter that holds a role's spot capacity. *)
Definition spot_parameter (r : role) : string :=
  match r with
  | MASTER => "instance_num_spot_master"
  | CORE => "instance_num_spot_core"
  | TASK => "instance_num_spot_task"
  end.

Definition opt_key (b : bool) (k : string) : list string :=
  if b then [k] else [].

Fixpoint no_dup_keys (l : list string) : bool :=
  match l with
  | [] => true
  | k :: l' => negb (existsb (String.eqb k) l') && no_dup_keys l'
  end.

Definition count_char (ch : ascii) (s : string) : nat :=
  length (filter (Ascii.eqb ch) (list_ascii_of_string s)).

(** [c] with the three spot capacities replaced. *)
Definition with_spot (m co t : Z) (c : config) : config :=
  {| cluster_name := cluster_name c;
     logging_s3_path := logging_s3_path c;
     emr_release := emr_release c;
     subnet_id := subnet_id c;
     emr_ec2_role := emr_ec2_role c;
     emr_role := emr_role c;
     instance_type_master := instance_type_master c;
     instance_type_core := instance_type_core c;
     instance_type_task := instance_type_task c;
     instance_ebs_size_master := instance_ebs_size_master c;
     instance_ebs_size_core := instance_ebs_size_core c;
     instance_ebs_size_task := instance_ebs_size_task c;
     instance_num_on_demand_master := instance_num_on_demand_master c;
     instance_num_on_demand_core := instance_num_on_demand_core c;
     instance_num_on_demand_task := instance_num_on_demand_task c;
     instance_num_spot_master := m;
     instance_num_spot_core := co;
     instance_num_spot_task := t;
     spot_bid_percentage_of_on_demand_master := spot_bid_percentage_of_on_demand_master c;
     spot_bid_percentage_of_on_demand_core := spot_bid_percentage_of_on_demand_core c;
     spot_bid_percentage_of_on_demand_task := spot_bid_percentage_of_on_demand_task c;
     spot_provisioning_timeout_master := spot_provisioning_timeout_master c;
     spot_provisioning_timeout_core := spot_provisioning_timeout_core c;
     spot_provisioning_timeout_task := spot_provisioning_timeout_task c;
     spot_timeout_to_on_demand_master := spot_timeout_to_on_demand_master c;
     spot_timeout_to_on_demand_core := spot_timeout_to_on_demand_core c;
     spot_timeout_to_on_demand_task := spot_timeout_to_on_demand_task c;
     python3 := python3 c;
     spark_glue_catalog := spark_glue_catalog c;
     hive_glue_catalog := hive_glue_catalog c;
     presto_glue_catalog := presto_glue_catalog c;
     bootstraps_paths := bootstraps_paths c;
     debugging := debugging c;
     applications := applications c;
     visible_to_all_users := visible_to_all_users c;
     key_pair_name := key_pair_name c;
     security_group_master := security_group_master c;
     security_groups_master_additional := security_groups_master_additional c;
     security_group_slave := security_group_slave c;
     security_groups_slave_additional := security_groups_slave_additional c;
     security_group_service_access := security_group_service_access c |}.




(** A service that refuses every request. *)
Definition failing_client (r : request) (w : unit) : result value * unit :=
  (Raise (ServiceError "ThrottlingException"), w).

(** A service that answers the queries with fixed states. *)
Definition sample_lifecycle_client (r : lifecycle_request) (w : unit)
    : result value * unit :=
  match r with
  | DescribeCluster _ =>
      (Ok (VDict [ ("Cluster",
                    VDict [ ("Id", VStr "j-1");
                            ("Status", VDict [ ("State", VStr "WAITING") ]) ]) ]), w)
  | TerminateJobFlows _ => (Ok (VDict [ ("ResponseMetadata", VDict []) ]), w)
  | DescribeStep _ _ =>
      (Ok (VDict [ ("Step",
                    VDict [ ("Status", VDict [ ("State", VStr "COMPLETED") ]) ]) ]), w)
  end.

(** * Proofs *)

(** ** Dictionaries *)

Lemma dict_get_app k a b :
  dict_get k (a ++ b)
  = match dict_get k a with Some v => Some v | None => dict_get k b end.
Proof.
  induction a as [|[k' v'] a IH]; simpl; [reflexivity|].
  destruct (String.eqb k k'); [reflexivity | exact IH].
Qed.

Lemma dict_get_opt_entry k b k' v :
  dict_get k (opt_entry b k' v) = if b && String.eqb k k' then Some v else None.
Proof. destruct b; simpl; [destruct (String.eqb k k')|]; reflexivity. Qed.

Lemma dict_set_fresh k v d :
  dict_get k d = None -> dict_set k v d = d ++ [(k, v)].
Proof.
  induction d as [|[k' v'] d IH]; simpl; [reflexivity|].
  destruct (String.eqb k k'); [discriminate|].
  intros H. rewrite (IH H). reflexivity.
Qed.

Lemma dict_get_set_same k v d : dict_get k (dict_set k v d) = Some v.
Proof.
  induction d as [|[k' v'] d IH]; simpl.
  - now rewrite String.eqb_refl.
  - destruct (String.eqb k k') eqn:E; simpl; rewrite E; [reflexivity | exact IH].
Qed.

Lemma dict_get_set_other k k' v d :
  String.eqb k' k = false -> dict_get k' (dict_set k v d) = dict_get k' d.
Proof.
  intros Hne. induction d as [|[k0 v0] d IH]; simpl.
  - now rewrite Hne.
  - destruct (String.eqb k k0) eqn:E; simpl.
    + apply String.eqb_eq in E. subst k0. now rewrite Hne.
    + now rewrite IH.
Qed.

Lemma existsb_cons_false k k' l :
  existsb (String.eqb k) (k' :: l) = false ->
  String.eqb k k' = false /\ existsb (String.eqb k) l = false.
Proof. simpl. apply orb_false_elim. Qed.

(** Closes [dict_get k d = None] when [d] is built from literal entries
    and optional segments with other keys. *)
Ltac fresh_key :=
  repeat first
    [ reflexivity
    | rewrite dict_get_app
    | rewrite dict_get_opt_entry; cbn [String.eqb Ascii.eqb Bool.eqb];
      rewrite ?andb_false_r ].

(** ** One statement of the builder at a time *)

Section Shape.
Variables h1 h2 h3 h4 h5 h6 sn : value.
Local Notation "'shape'" := (args_shape h1 h2 h3 h4 h5 h6 sn).

Lemma init_shape :
  VDict [ ("Name", h1); ("LogUri", h2); ("ReleaseLabel", h3);
          ("VisibleToAllUsers", h4); ("JobFlowRole", h5); ("ServiceRole", h6);
          ("Instances",
           VDict [ ("KeepJobFlowAliveWhenNoSteps", VBool true);
                   ("TerminationProtected", VBool false);
                   ("Ec2SubnetId", sn);
                   ("InstanceFleets", VList []) ]) ]
  = args_shape h1 h2 h3 h4 h5 h6 sn [] [] [].
Proof. reflexivity. Qed.

(** [if b: args["Instances"][k] = x] for a new key [k]. *)
Lemma stage_inst (b : bool) k x fleets itail rest :
  existsb (String.eqb k) fixed_inst = false ->
  dict_get k itail = None ->
  (if b then setitem_in (shape fleets itail rest) "Instances" k x
   else Ok (shape fleets itail rest))
  = Ok (shape fleets (itail ++ opt_entry b k x) rest).
Proof.
  intros Hk Hf. destruct b; simpl opt_entry; [| now rewrite app_nil_r].
  unfold fixed_inst in Hk.
  repeat (apply existsb_cons_false in Hk; destruct Hk as [? Hk]).
  unfold setitem_in, args_shape.
  cbn [getitem dict_getitem dict_get String.eqb Ascii.eqb Bool.eqb setitem dict_set].
  rewrite H, H0, H1, H2, (dict_set_fresh _ _ _ Hf). reflexivity.
Qed.

(** [if b: args[k] = x] for a new key [k]. *)
Lemma stage_top (b : bool) k x fleets itail rest :
  existsb (String.eqb k) fixed_top = false ->
  dict_get k rest = None ->
  (if b then setitem (shape fleets itail rest) k x
   else Ok (shape fleets itail rest))
  = Ok (shape fleets itail (rest ++ opt_entry b k x)).
Proof.
  intros Hk Hf. destruct b; simpl opt_entry; [| now rewrite app_nil_r].
  unfold fixed_top in Hk.
  repeat (apply existsb_cons_false in Hk; destruct Hk as [? Hk]).
  unfold args_shape. cbn [setitem dict_set].
  rewrite H, H0, H1, H2, H3, H4, H5, (dict_set_fresh _ _ _ Hf). reflexivity.
Qed.

Lemma setitem_top k x fleets itail rest :
  existsb (String.eqb k) fixed_top = false ->
  dict_get k rest = None ->
  setitem (shape fleets itail rest) k x
  = Ok (shape fleets itail (rest ++ [(k, x)])).
Proof. intros Hk Hf. exact (stage_top true k x fleets itail rest Hk Hf). Qed.

(** [if b: args[k].append(x)] where [k] is the first optional key. *)
Lemma cond_append_at (b : bool) k x l fleets itail rest :
  existsb (String.eqb k) fixed_top = false ->
  (if b then append_at (shape fleets itail ((k, VList l) :: rest)) k x
   else Ok (shape fleets itail ((k, VList l) :: rest)))
  = Ok (shape fleets itail ((k, VList (l ++ opt_item b x)) :: rest)).
Proof.
  intros Hk. destruct b; simpl opt_item; [| now rewrite app_nil_r].
  unfold fixed_top in Hk.
  repeat (apply existsb_cons_false in Hk; destruct Hk as [? Hk]).
  unfold append_at, args_shape, getitem, dict_getitem, setitem.
  cbn [dict_get dict_set].
  rewrite H, H0, H1, H2, H3, H4, H5, String.eqb_refl.
  reflexivity.
Qed.

Lemma cond_section (b : bool) k x fleets itail :
  (if b then Ok (shape fleets itail [(k, x)]) else Ok (shape fleets itail []))
  = Ok (shape fleets itail (opt_entry b k x)).
Proof. destruct b; reflexivity. Qed.

(** [if it: args[k] = [f(x) for x in it]] for an optional list of
    strings [it]. *)
Lemma stage_iter o (f : value -> value) k fleets itail rest :
  existsb (String.eqb k) fixed_top = false ->
  dict_get k rest = None ->
  (if truthy (of_opt_list o)
   then xs <- py_iter (of_opt_list o) ;;
        setitem (shape fleets itail rest) k (VList (map f xs))
   else Ok (shape fleets itail rest))
  = Ok (shape fleets itail
          (rest ++ opt_entry (truthy (of_opt_list o)) k
                     (VList (map f (map VStr (list_of o)))))).
Proof.
  intros Hk Hf. rewrite <- (stage_top _ _ _ _ _ _ Hk Hf).
  destruct o as [l|]; reflexivity.
Qed.

(** [args["Instances"]["InstanceFleets"].append(x)]. *)
Lemma append_fleet x fleets itail rest :
  append_in (shape fleets itail rest) "Instances" "InstanceFleets" x
  = Ok (shape (fleets ++ [x]) itail rest).
Proof. reflexivity. Qed.
End Shape.

Lemma cond_setitem_fresh (b : bool) d k x :
  dict_get k d = None ->
  (if b then setitem (VDict d) k x else Ok (VDict d))
  = Ok (VDict (d ++ opt_entry b k x)).
Proof.
  intros Hf. destruct b; simpl;
    [now rewrite (dict_set_fresh _ _ _ Hf) | now rewrite app_nil_r].
Qed.

Lemma py_or_bool (a b : bool) :
  py_or (VBool a) (Ok (VBool b)) = Ok (VBool (a || b)).
Proof. destruct a; reflexivity. Qed.

Ltac run_stmt lem := rewrite lem by fresh_key; cbv beta iota.

(** The builder computes the closed form, on every configuration. *)
Theorem build_cluster_args_closed_form (c : config) :
  _build_cluster_args (create_cluster_locals c) = Ok (document_of c).
Proof.
  unfold _build_cluster_args, create_cluster_locals.
  cbn [dict_getitem dict_get String.eqb Ascii.eqb Bool.eqb py_gt as_int].
  rewrite init_shape.
  do 6 run_stmt stage_inst.
  rewrite !py_or_bool. cbn [truthy].
  run_stmt setitem_top. cbn [app].
  do 3 run_stmt cond_append_at.
  rewrite cond_append_at by reflexivity.
  run_stmt cond_section.
  do 2 run_stmt stage_iter.
  run_stmt stage_top.
  do 3 (run_stmt cond_setitem_fresh; run_stmt append_fleet).
  rewrite <- !app_assoc. cbn [app].
  unfold document_of, top_optional, instances_optional, classifications, any_toggle,
    application_entry, bootstrap_action, fleet_document, instance_type_config, spot_specification, debugging_step,
    classification_entry, role_name, instance_type, instance_ebs_size,
    instance_num_on_demand, instance_num_spot, spot_bid_percentage_of_on_demand,
    spot_provisioning_timeout, spot_timeout_to_on_demand.
  cbn [app].
  reflexivity.
Qed.

(** ** Reading the closed form *)

Lemma dict_get_opt_app k b k' v rest :
  dict_get k (opt_entry b k' v ++ rest)
  = if b && String.eqb k k' then Some v else dict_get k rest.
Proof.
  rewrite dict_get_app, dict_get_opt_entry.
  destruct (b && String.eqb k k'); reflexivity.
Qed.

(** Reduces a lookup of a literal path in [document_of c] to a test on
    the configuration. *)
Ltac read_doc :=
  unfold document_of, args_shape, top_optional, instances_optional;
  cbn [lookup field dict_get String.eqb Ascii.eqb Bool.eqb];
  rewrite ?dict_get_opt_app, ?dict_get_opt_entry;
  cbn [String.eqb Ascii.eqb Bool.eqb];
  rewrite ?andb_false_r, ?andb_true_r;
  cbv iota.

Lemma section_lookup (c : config) (s : optional_section) :
  lookup (section_path s) (document_of c)
  = if section_trigger c s
    then match s with
         | SecConfigurations => Some (VList (classifications c))
         | SecApplications =>
             Some (VList (map application_entry (map VStr (list_of (applications c)))))
         | SecBootstrapActions =>
             Some (VList (map bootstrap_action (map VStr (list_of (bootstraps_paths c)))))
         | SecSteps => Some (VList [debugging_step])
         | _ => section_input c s
         end
    else None.
Proof.
  destruct s; unfold section_path, section_trigger, section_input; read_doc.
  - destruct (any_toggle c); reflexivity.
  - destruct (applications c) as [[|a l]|]; reflexivity.
  - destruct (bootstraps_paths c) as [[|a l]|]; reflexivity.
  - destruct (debugging c); reflexivity.
  - destruct (key_pair_name c); reflexivity.
  - destruct (security_group_master c); reflexivity.
  - destruct (security_groups_master_additional c); reflexivity.
  - destruct (security_group_slave c); reflexivity.
  - destruct (security_groups_slave_additional c); reflexivity.
  - destruct (security_group_service_access c); reflexivity.
Qed.

Lemma fleets_lookup (c : config) :
  lookup [Key "Instances"; Key "InstanceFleets"] (document_of c)
  = Some (VList [fleet_document MASTER c; fleet_document CORE c; fleet_document TASK c]).
Proof. reflexivity. Qed.

Lemma has_fleet_type_document (r r' : role) (c : config) :
  has_fleet_type r (fleet_document r' c) = String.eqb (role_name r') (role_name r).
Proof. reflexivity. Qed.

Lemma fleet_entry_document (r : role) (c : config) :
  fleet_entry r (document_of c) = Some (fleet_document r c).
Proof.
  unfold fleet_entry. rewrite fleets_lookup. cbn [find].
  rewrite !has_fleet_type_document. destruct r; reflexivity.
Qed.

Lemma launch_specifications_field (r : role) (c : config) :
  field "LaunchSpecifications" (fleet_document r c)
  = if 0 <? instance_num_spot r c then Some (spot_specification r c) else None.
Proof.
  unfold fleet_document. cbn [field app dict_get String.eqb Ascii.eqb Bool.eqb].
  rewrite dict_get_opt_entry. cbn [String.eqb Ascii.eqb Bool.eqb].
  now rewrite andb_true_r.
Qed.

(** ** The log line *)















(** The bound sits between 4300 and 4301 digits. *)
Example int_to_str_ok_boundary :
  int_to_str_ok (10 ^ 4300 - 1) = true /\
  int_to_str_ok (- (10 ^ 4300 - 1)) = true /\
  int_to_str_ok (10 ^ 4300) = false.
Proof. vm_compute. repeat split. Qed.


(** * Properties of the module *)




(** Outside the signature of [create_cluster] the statements themselves
    raise: a keyword dictionary that lacks a parameter, or holds [None]
    where an integer is compared. *)
Example builder_raises_on_missing_parameter :
  _build_cluster_args [] = Raise (KeyError "cluster_name").
Proof. reflexivity. Qed.

Example builder_raises_on_untyped_capacity :
  _build_cluster_args
    (dict_set "instance_num_spot_master" VNone (create_cluster_locals sample_config))
  = Raise TypeError.
Proof. reflexivity. Qed.

(** C3.  The [Instances] block keeps the job flow alive, is not
    termination protected, carries the given subnet id, and lists exactly
    three fleets, MASTER, CORE and TASK in that order. *)
Theorem C3_instances_block (c : config) :
  exists doc f1 f2 f3,
    _build_cluster_args (create_cluster_locals c) = Ok doc /\
    lookup [Key "Instances"; Key "KeepJobFlowAliveWhenNoSteps"] doc = Some (VBool true) /\
    lookup [Key "Instances"; Key "TerminationProtected"] doc = Some (VBool false) /\
    lookup [Key "Instances"; Key "Ec2SubnetId"] doc = Some (VStr (subnet_id c)) /\
    lookup [Key "Instances"; Key "InstanceFleets"] doc = Some (VList [f1; f2; f3]) /\
    (field "Name" f1 = Some (VStr "MASTER") /\
     field "InstanceFleetType" f1 = Some (VStr "MASTER")) /\
    (field "Name" f2 = Some (VStr "CORE") /\
     field "InstanceFleetType" f2 = Some (VStr "CORE")) /\
    (field "Name" f3 = Some (VStr "TASK") /\
     field "InstanceFleetType" f3 = Some (VStr "TASK")).
Proof.
  exists (document_of c), (fleet_document MASTER c), (fleet_document CORE c),
    (fleet_document TASK c).
  split; [apply build_cluster_args_closed_form|].
  repeat split; reflexivity.
Qed.

(** C5.  The fleet entry of each role is named and typed after the role,
    takes its two target capacities from the role's inputs, and has one
    instance type configuration: weighted capacity 1, the role's instance
    type and bid percentage, one gp2 block device of the role's size with
    one volume per instance, EBS-optimized. *)
Theorem C5_fleet_entry (c : config) (r : role) :
  exists doc fleet,
    _build_cluster_args (create_cluster_locals c) = Ok doc /\
    fleet_entry r doc = Some fleet /\
    field "Name" fleet = Some (VStr (role_name r)) /\
    field "InstanceFleetType" fleet = Some (VStr (role_name r)) /\
    field "TargetOnDemandCapacity" fleet = Some (VInt (instance_num_on_demand r c)) /\
    field "TargetSpotCapacity" fleet = Some (VInt (instance_num_spot r c)) /\
    field "InstanceTypeConfigs" fleet
    = Some (VList
        [ VDict
            [ ("InstanceType", VStr (instance_type r c));
              ("WeightedCapacity", VInt 1);
              ("BidPriceAsPercentageOfOnDemandPrice",
               VInt (spot_bid_percentage_of_on_demand r c));
              ("EbsConfiguration",
               VDict
                 [ ("EbsBlockDeviceConfigs",
                    VList
                      [ VDict
                          [ ("VolumeSpecification",
                             VDict [ ("SizeInGB", VInt (instance_ebs_size r c));
                                     ("VolumeType", VStr "gp2") ]);
                            ("VolumesPerInstance", VInt 1) ] ]);
                   ("EbsOptimized", VBool true) ]) ] ]).
Proof.
  exists (document_of c), (fleet_document r c).
  split; [apply build_cluster_args_closed_form|].
  split; [apply fleet_entry_document|].
  repeat split; reflexivity.
Qed.

(** C1.  For each role: with a spot capacity above 0 the fleet entry
    carries a spot specification whose timeout is the role's provisioning
    timeout and whose action is SWITCH_TO_ON_DEMAND when the role's
    boolean is true and TERMINATE_CLUSTER otherwise; with a spot capacity
    of 0 the entry has no launch specification key. *)
Theorem C1_spot_specification (c : config) (r : role) :
  exists doc fleet,
    _build_cluster_args (create_cluster_locals c) = Ok doc /\
    fleet_entry r doc = Some fleet /\
    (0 < instance_num_spot r c ->
     lookup [Key "LaunchSpecifications"; Key "SpotSpecification";
             Key "TimeoutDurationMinutes"] fleet
     = Some (VInt (spot_provisioning_timeout r c)) /\
     lookup [Key "LaunchSpecifications"; Key "SpotSpecification";
             Key "TimeoutAction"] fleet
     = Some (VStr (if spot_timeout_to_on_demand r c
                   then "SWITCH_TO_ON_DEMAND" else "TERMINATE_CLUSTER"))) /\
    (instance_num_spot r c = 0 ->
     field "LaunchSpecifications" fleet = None).
Proof.
  exists (document_of c), (fleet_document r c).
  split; [apply build_cluster_args_closed_form|].
  split; [apply fleet_entry_document|].
  split.
  - intros Hpos. apply Z.ltb_lt in Hpos.
    cbn [lookup]. rewrite launch_specifications_field, Hpos.
    split; reflexivity.
  - intros Hzero. rewrite launch_specifications_field, Hzero. reflexivity.
Qed.

Lemma C1_spot_specification_witness :
  (exists doc fleet,
     _build_cluster_args (create_cluster_locals sample_config) = Ok doc /\
     fleet_entry CORE doc = Some fleet /\
     lookup [Key "LaunchSpecifications"; Key "SpotSpecification";
             Key "TimeoutDurationMinutes"] fleet = Some (VInt 6) /\
     lookup [Key "LaunchSpecifications"; Key "SpotSpecification";
             Key "TimeoutAction"] fleet = Some (VStr "TERMINATE_CLUSTER")) /\
  (exists doc fleet,
     _build_cluster_args (create_cluster_locals sample_config) = Ok doc /\
     fleet_entry MASTER doc = Some fleet /\
     field "LaunchSpecifications" fleet = None).
Proof.
  split.
  - destruct (C1_spot_specification sample_config CORE)
      as (doc & fleet & Hdoc & Hfleet & Hpos & _).
    exists doc, fleet. split; [exact Hdoc|]. split; [exact Hfleet|].
    apply Hpos. reflexivity.
  - destruct (C1_spot_specification sample_config MASTER)
      as (doc & fleet & Hdoc & Hfleet & _ & Hzero).
    exists doc, fleet. split; [exact Hdoc|]. split; [exact Hfleet|].
    apply Hzero. reflexivity.
Defined.

(** C4.  With exactly one of the four toggles on, the configurations
    list is the one classification entry of that toggle; with all four
    on, it is the four entries in the order python3, spark, hive, presto;
    with none on, the document has no [Configurations] key. *)
Theorem C4_configurations_list (c : config) :
  exists doc,
    _build_cluster_args (create_cluster_locals c) = Ok doc /\
    (forall t : toggle,
       (forall t', toggle_on c t' = toggle_eqb t' t) ->
       lookup [Key "Configurations"] doc = Some (VList [classification_entry t])) /\
    ((forall t, toggle_on c t = true) ->
     lookup [Key "Configurations"] doc
     = Some (VList [ classification_entry Python3; classification_entry SparkGlue;
                     classification_entry HiveGlue; classification_entry PrestoGlue ])) /\
    ((forall t, toggle_on c t = false) ->
     lookup [Key "Configurations"] doc = None) /\
    map (field "Classification")
      (map classification_entry [Python3; SparkGlue; HiveGlue; PrestoGlue])
    = [ Some (VStr "spark-env"); Some (VStr "spark-hive-site");
        Some (VStr "hive-site"); Some (VStr "presto-connector-hive") ].
Proof.
  exists (document_of c).
  split; [apply build_cluster_args_closed_form|].
  pose proof (section_lookup c SecConfigurations) as Hcfg.
  unfold section_path, section_trigger, any_toggle, classifications in Hcfg.
  repeat split.
  - intros t Honly. rewrite Hcfg.
    pose proof (Honly Python3) as Hp. pose proof (Honly SparkGlue) as Hs.
    pose proof (Honly HiveGlue) as Hh. pose proof (Honly PrestoGlue) as Hq.
    cbn [toggle_on] in Hp, Hs, Hh, Hq. rewrite Hp, Hs, Hh, Hq.
    destruct t; reflexivity.
  - intros Hall. rewrite Hcfg.
    pose proof (Hall Python3) as Hp. pose proof (Hall SparkGlue) as Hs.
    pose proof (Hall HiveGlue) as Hh. pose proof (Hall PrestoGlue) as Hq.
    cbn [toggle_on] in Hp, Hs, Hh, Hq. rewrite Hp, Hs, Hh, Hq. reflexivity.
  - intros Hnone. rewrite Hcfg.
    pose proof (Hnone Python3) as Hp. pose proof (Hnone SparkGlue) as Hs.
    pose proof (Hnone HiveGlue) as Hh. pose proof (Hnone PrestoGlue) as Hq.
    cbn [toggle_on] in Hp, Hs, Hh, Hq. rewrite Hp, Hs, Hh, Hq. reflexivity.
Qed.

Lemma C4_configurations_list_witness :
  (exists doc,
     _build_cluster_args
       (create_cluster_locals (with_toggles false false true false sample_config)) = Ok doc /\
     lookup [Key "Configurations"] doc = Some (VList [classification_entry HiveGlue])) /\
  (exists doc,
     _build_cluster_args
       (create_cluster_locals (with_toggles true true true true sample_config)) = Ok doc /\
     lookup [Key "Configurations"] doc
     = Some (VList [ classification_entry Python3; classification_entry SparkGlue;
                     classification_entry HiveGlue; classification_entry PrestoGlue ])) /\
  (exists doc,
     _build_cluster_args
       (create_cluster_locals (with_toggles false false false false sample_config)) = Ok doc /\
     lookup [Key "Configurations"] doc = None).
Proof.
  split; [|split].
  - destruct (C4_configurations_list (with_toggles false false true false sample_config))
      as (doc & Hdoc & Hone & _).
    exists doc. split; [exact Hdoc|]. apply Hone. intros []; reflexivity.
  - destruct (C4_configurations_list (with_toggles true true true true sample_config))
      as (doc & Hdoc & _ & Hall & _).
    exists doc. split; [exact Hdoc|]. apply Hall. intros []; reflexivity.
  - destruct (C4_configurations_list (with_toggles false false false false sample_config))
      as (doc & Hdoc & _ & _ & Hnone & _).
    exists doc. split; [exact Hdoc|]. apply Hnone. intros []; reflexivity.
Defined.

(** C8.  For a non-empty list of bootstrap paths, the bootstrap actions
    are one entry per path, in input order, each named after its path and
    with its path as script path. *)
Theorem C8_bootstrap_actions (c : config) (paths : list string) :
  bootstraps_paths c = Some paths ->
  paths <> [] ->
  exists doc,
    _build_cluster_args (create_cluster_locals c) = Ok doc /\
    lookup [Key "BootstrapActions"] doc
    = Some (VList (map (fun p => VDict [ ("Name", VStr p);
                                         ("ScriptBootstrapAction",
                                          VDict [ ("Path", VStr p) ]) ])
                       paths)).
Proof.
  intros Hpaths Hne. exists (document_of c).
  split; [apply build_cluster_args_closed_form|].
  pose proof (section_lookup c SecBootstrapActions) as Hboot.
  unfold section_path, section_trigger in Hboot.
  rewrite Hboot, Hpaths. destruct paths as [|p paths]; [contradiction|].
  cbn [nonempty_list list_of]. rewrite map_map. reflexivity.
Qed.

Lemma C8_bootstrap_actions_witness :
  exists doc,
    _build_cluster_args (create_cluster_locals sample_config) = Ok doc /\
    lookup [Key "BootstrapActions"] doc
    = Some (VList [ VDict [ ("Name", VStr "s3://b/x.sh");
                            ("ScriptBootstrapAction",
                             VDict [ ("Path", VStr "s3://b/x.sh") ]) ] ]).
Proof.
  apply (C8_bootstrap_actions sample_config ["s3://b/x.sh"]).
  - reflexivity.
  - discriminate.
Defined.

Lemma classifications_nonempty (c : config) :
  any_toggle c = true -> null_or_empty (VList (classifications c)) = false.
Proof.
  unfold any_toggle, classifications.
  destruct (python3 c), (spark_glue_catalog c), (hive_glue_catalog c),
    (presto_glue_catalog c); intros H; try reflexivity; discriminate.
Qed.

(** C2, as the code has it.  Each optional section is a key of the
    document exactly when its trigger holds, and is otherwise absent:
    a truthy toggle for the configurations and the debugging step, a
    non-empty list for the applications and the bootstrap actions, and an
    input other than [None] for the key pair name and the five security
    group fields.  The four computed sections are never empty when
    present; the six copied ones carry their input as given. *)
Theorem C2_optional_sections (c : config) :
  exists doc,
    _build_cluster_args (create_cluster_locals c) = Ok doc /\
    (forall s, lookup (section_path s) doc <> None <-> section_trigger c s = true) /\
    (forall s v, computed_section s = true ->
       lookup (section_path s) doc = Some v -> null_or_empty v = false) /\
    (forall s, computed_section s = false ->
       lookup (section_path s) doc = section_input c s).
Proof.
  exists (document_of c).
  split; [apply build_cluster_args_closed_form|].
  split; [|split].
  - intros s. rewrite section_lookup.
    destruct (section_trigger c s) eqn:Ht.
    + split; [reflexivity|]. intros _.
      destruct s; try discriminate;
        unfold section_trigger, section_input in *;
        match goal with
        | H : is_some ?o = true |- _ => destruct o; [discriminate | discriminate H]
        end.
    + split; [intros H; now contradiction H | discriminate].
  - intros s v Hs. rewrite section_lookup.
    destruct (section_trigger c s) eqn:Ht; [|discriminate].
    destruct s; try discriminate Hs; intros Hv; injection Hv as <-.
    + now apply classifications_nonempty.
    + unfold section_trigger in Ht.
      destruct (applications c) as [[|a l]|]; try discriminate Ht. reflexivity.
    + unfold section_trigger in Ht.
      destruct (bootstraps_paths c) as [[|a l]|]; try discriminate Ht. reflexivity.
    + reflexivity.
  - intros s Hs. rewrite section_lookup.
    destruct s; try discriminate Hs; unfold section_trigger, section_input;
      match goal with
      | |- context [is_some ?o] => destruct o; reflexivity
      end.
Qed.

Lemma C2_optional_sections_witness :
  exists doc,
    _build_cluster_args (create_cluster_locals sample_config) = Ok doc /\
    lookup [Key "Steps"] doc <> None /\
    null_or_empty (VList [debugging_step]) = false /\
    lookup [Key "Instances"; Key "AdditionalMasterSecurityGroups"] doc = Some (VList []).
Proof.
  destruct (C2_optional_sections sample_config) as (doc & Hdoc & Hiff & Hfull & Hcopy).
  exists doc. split; [exact Hdoc|].
  split; [apply (Hiff SecSteps); reflexivity|].
  split; [|apply (Hcopy SecMasterAdditionalGroups); reflexivity].
  apply (Hfull SecSteps); [reflexivity|].
  vm_compute in Hdoc. injection Hdoc as <-. reflexivity.
Defined.

(** C2 as the specification states it fails: an empty list of additional
    master security groups is not [None], so the builder includes the key
    with the empty list as its value. *)
Lemma C2_counterexample :
  exists doc,
    _build_cluster_args (create_cluster_locals sample_config) = Ok doc /\
    security_groups_master_additional sample_config = Some [] /\
    lookup [Key "Instances"; Key "AdditionalMasterSecurityGroups"] doc = Some (VList []) /\
    ~ stated_optional_sections sample_config doc.
Proof.
  exists (document_of sample_config).
  split; [apply build_cluster_args_closed_form|].
  split; [reflexivity|]. split; [reflexivity|].
  intros Hstated.
  destruct (Hstated SecMasterAdditionalGroups) as [_ Hvalue].
  specialize (Hvalue (VList []) eq_refl). discriminate Hvalue.
Qed.

(** ** Splitting a string at one character *)

Lemma str_split_nonempty sep s : str_split sep s <> [].
Proof.
  destruct s as [|ch s]; simpl; [discriminate|].
  destruct (Ascii.eqb ch sep); [discriminate|].
  destruct (str_split sep s); discriminate.
Qed.

Lemma has_char_cons sep ch s :
  has_char sep (String ch s) = (Ascii.eqb sep ch || has_char sep s)%bool.
Proof. reflexivity. Qed.

(** A text without the separator is a single piece. *)
Lemma str_split_no_sep sep s :
  has_char sep s = false -> str_split sep s = [s].
Proof.
  induction s as [|ch s IH]; [reflexivity|].
  rewrite has_char_cons. intros H. apply orb_false_elim in H as [Hch Hs].
  simpl. rewrite Ascii.eqb_sym, Hch, (IH Hs). reflexivity.
Qed.

Lemma concat_cons2 sep x y l :
  String.concat sep (x :: y :: l) = (x ++ sep ++ String.concat sep (y :: l))%string.
Proof. reflexivity. Qed.

(** Joining the pieces with the separator gives the text back. *)
Lemma str_split_join sep s :
  String.concat (String sep EmptyString) (str_split sep s) = s.
Proof.
  induction s as [|ch s IH]; [reflexivity|].
  pose proof (str_split_nonempty sep s) as Hn.
  cbn [str_split]. destruct (Ascii.eqb_spec ch sep) as [->|Hne];
    destruct (str_split sep s) as [|w ws]; try contradiction.
  - rewrite concat_cons2, IH. reflexivity.
  - destruct ws as [|w' ws].
    + cbn [String.concat] in IH |- *. now rewrite IH.
    + rewrite concat_cons2 in IH |- *. cbn [append] in IH |- *. now rewrite IH.
Qed.

(** No piece contains the separator. *)
Lemma str_split_pieces sep s :
  Forall (fun w => has_char sep w = false) (str_split sep s).
Proof.
  induction s as [|ch s IH]; [repeat constructor|].
  simpl. destruct (Ascii.eqb ch sep) eqn:E.
  - constructor; [reflexivity | exact IH].
  - destruct (str_split sep s) as [|w ws]; [repeat constructor|].
    + rewrite has_char_cons, Ascii.eqb_sym, E. reflexivity.
    + inversion IH as [|? ? Hw Hws]; subst. constructor; [|exact Hws].
      rewrite has_char_cons, Ascii.eqb_sym, E. exact Hw.
Qed.

(** Two separators in a row leave an empty piece between them. *)
Lemma str_split_double sep pre post :
  In EmptyString
    (tl (str_split sep (pre ++ String sep (String sep post))%string)).
Proof.
  induction pre as [|ch pre IH].
  - simpl. rewrite Ascii.eqb_refl. left. reflexivity.
  - cbn [append str_split]. destruct (Ascii.eqb ch sep).
    + cbn [tl]. destruct (str_split sep _) as [|w ws]; [contradiction|].
      right. exact IH.
    + destruct (str_split sep _) as [|w ws]; [contradiction|]. exact IH.
Qed.

Lemma str_split_cons_word sep w s :
  has_char sep w = false ->
  str_split sep (w ++ String sep s)%string = w :: str_split sep s.
Proof.
  induction w as [|ch w IH]; intros Hw.
  - simpl. now rewrite Ascii.eqb_refl.
  - rewrite has_char_cons in Hw. apply orb_false_elim in Hw as [Hch Hw].
    cbn [append str_split]. rewrite Ascii.eqb_sym, Hch, (IH Hw). reflexivity.
Qed.

(** ** The whitespace split of the specification *)

Lemma word_no_space w : word w -> has_char " " w = false.
Proof.
  intros [_ Hw]. induction w as [|ch w IH]; [reflexivity|].
  cbn [list_ascii_of_string forallb] in Hw. apply andb_prop in Hw as [Hch Hw].
  rewrite has_char_cons, (IH Hw), orb_false_r.
  destruct (Ascii.eqb_spec " "%char ch) as [<-|]; [discriminate Hch | reflexivity].
Qed.

Lemma split_whitespace_cons ch rest :
  split_whitespace (String ch rest)
  = if is_whitespace ch then split_whitespace rest
    else if starts_word rest
         then match split_whitespace rest with
              | w :: ws => String ch w :: ws
              | [] => [String ch EmptyString]
              end
         else String ch EmptyString :: split_whitespace rest.
Proof. reflexivity. Qed.

Lemma split_whitespace_word_end ch w :
  forallb (fun ch => negb (is_whitespace ch)) (list_ascii_of_string (String ch w)) = true ->
  split_whitespace (String ch w) = [String ch w].
Proof.
  revert ch. induction w as [|ch' w IH]; intros ch Hw;
    cbn [list_ascii_of_string forallb] in Hw; apply andb_prop in Hw as [Hch Hw];
    apply negb_true_iff in Hch; rewrite split_whitespace_cons, Hch.
  - reflexivity.
  - assert (Hs : starts_word (String ch' w) = true).
    { cbn [list_ascii_of_string forallb] in Hw. now apply andb_prop in Hw as [? _]. }
    rewrite Hs, (IH ch' Hw). reflexivity.
Qed.

Lemma split_whitespace_word_space ch w s :
  forallb (fun ch => negb (is_whitespace ch)) (list_ascii_of_string (String ch w)) = true ->
  split_whitespace (String ch w ++ String " " s)%string
  = String ch w :: split_whitespace s.
Proof.
  revert ch. induction w as [|ch' w IH]; intros ch Hw;
    cbn [list_ascii_of_string forallb] in Hw; apply andb_prop in Hw as [Hch Hw];
    apply negb_true_iff in Hch; cbn [append]; rewrite split_whitespace_cons, Hch.
  - rewrite split_whitespace_cons. reflexivity.
  - assert (Hs : starts_word (String ch' (w ++ String " " s)) = true).
    { cbn [list_ascii_of_string forallb] in Hw. now apply andb_prop in Hw as [? _]. }
    rewrite Hs. change (String ch' (w ++ String " " s))%string
      with (String ch' w ++ String " " s)%string.
    rewrite (IH ch' Hw). reflexivity.
Qed.

(** On words joined by single spaces the two splits agree. *)
Lemma splits_agree_on_words (words : list string) :
  words <> [] -> Forall word words ->
  str_split " " (String.concat " " words) = words /\
  split_whitespace (String.concat " " words) = words.
Proof.
  intros Hne Hall. induction Hall as [|w ws Hw Hws IH]; [contradiction|].
  destruct ws as [|w' ws].
  - cbn [String.concat]. split.
    + apply str_split_no_sep, word_no_space, Hw.
    + destruct Hw as [Hw0 Hw]. destruct w as [|ch w]; [contradiction|].
      now apply split_whitespace_word_end.
  - destruct IH as [IH1 IH2]; [discriminate|].
    change (String.concat " " (w :: w' :: ws))
      with (w ++ String " " (String.concat " " (w' :: ws)))%string.
    split.
    + rewrite str_split_cons_word by (apply word_no_space, Hw). now rewrite IH1.
    + destruct Hw as [Hw0 Hw]. destruct w as [|ch w]; [contradiction|].
      rewrite split_whitespace_word_space by exact Hw. now rewrite IH2.
Qed.

(** ** Step submission *)

Section SubmitStep.
Context {world : Type}.
Variable client_emr : request -> world -> result value * world.
Variables (self : emr_object) (cluster_id name cmd : string).
Variable action_on_failure : option string.
Variable st : @state world.

Local Notation "'step'" := (step_document self name cmd action_on_failure).

(** One request goes out, with one step, whatever the service answers. *)
Lemma submit_step_requests :
  snd (snd (submit_step client_emr self cluster_id name cmd action_on_failure st))
  = snd st ++ [AddJobFlowSteps cluster_id [step]].
Proof.
  unfold submit_step, io_bind, call, lift.
  fold (step_document self name cmd action_on_failure).
  destruct (client_emr (AddJobFlowSteps cluster_id [step]) (fst st)) as [[response|e] w'];
    reflexivity.
Qed.

(** The result is [response["StepIds"][0]]. *)
Lemma submit_step_result response w' :
  client_emr (AddJobFlowSteps cluster_id [step]) (fst st) = (Ok response, w') ->
  fst (submit_step client_emr self cluster_id name cmd action_on_failure st)
  = (ids <- getitem response "StepIds" ;; getindex ids 0).
Proof.
  intros Hcall. unfold submit_step, io_bind, call, lift.
  fold (step_document self name cmd action_on_failure).
  rewrite Hcall. reflexivity.
Qed.
End SubmitStep.

(** C6, as the code has it.  [submit_step] sends one request with one
    step; the step's jar is the script-runner URI of the session's
    region, its arguments are the command cut at every space character,
    and the result is the first step id of the response.  For a command
    made of words joined by single spaces that is the split on
    whitespace, and [spark-submit a b] gives the three arguments of the
    example. *)
Theorem C6_submit_step {world : Type}
    (client_emr : request -> world -> result value * world)
    (self : emr_object) (cluster_id name cmd : string)
    (action_on_failure : option string) (st : @state world) :
  exists step,
    snd (snd (submit_step client_emr self cluster_id name cmd action_on_failure st))
    = snd st ++ [AddJobFlowSteps cluster_id [step]] /\
    lookup [Key "HadoopJarStep"; Key "Jar"] step
    = Some (VStr ("s3://" ++ region_name (_session self)
                    ++ ".elasticmapreduce/libs/script-runner/script-runner.jar")%string) /\
    lookup [Key "HadoopJarStep"; Key "Args"] step
    = Some (VList (map VStr (str_split " " cmd))) /\
    (forall response w' id ids,
       client_emr (AddJobFlowSteps cluster_id [step]) (fst st) = (Ok response, w') ->
       field "StepIds" response = Some (VList (id :: ids)) ->
       fst (submit_step client_emr self cluster_id name cmd action_on_failure st) = Ok id) /\
    (forall words,
       words <> [] -> Forall word words -> cmd = String.concat " " words ->
       str_split " " cmd = words /\ split_whitespace cmd = words) /\
    (cmd = "spark-submit a b" ->
     lookup [Key "HadoopJarStep"; Key "Args"] step
     = Some (VList [VStr "spark-submit"; VStr "a"; VStr "b"])).
Proof.
  exists (step_document self name cmd action_on_failure).
  split; [apply submit_step_requests|].
  split; [reflexivity|]. split; [reflexivity|]. split; [|split].
  - intros response w' id ids Hcall Hids.
    rewrite (submit_step_result _ _ _ _ _ _ _ _ _ Hcall).
    destruct response; try discriminate Hids.
    cbn [field] in Hids. unfold getitem, dict_getitem. rewrite Hids. reflexivity.
  - intros words Hne Hwords ->. now apply splits_agree_on_words.
  - intros ->. reflexivity.
Qed.

Lemma C6_submit_step_witness :
  exists step,
    snd (snd (submit_step sample_client sample_self "j-1" "n" "spark-submit a b" None (tt, [])))
    = [AddJobFlowSteps "j-1" [step]] /\
    lookup [Key "HadoopJarStep"; Key "Args"] step
    = Some (VList [VStr "spark-submit"; VStr "a"; VStr "b"]) /\
    fst (submit_step sample_client sample_self "j-1" "n" "spark-submit a b" None (tt, []))
    = Ok (VStr "s-1") /\
    (str_split " " "spark-submit a b" = ["spark-submit"; "a"; "b"] /\
     split_whitespace "spark-submit a b" = ["spark-submit"; "a"; "b"]).
Proof.
  destruct (C6_submit_step sample_client sample_self "j-1" "n" "spark-submit a b" None (tt, []))
    as (step & Hsent & _ & _ & Hresult & Hwords & Hargs).
  exists step. split; [exact Hsent|]. split; [apply Hargs; reflexivity|].
  split.
  - apply (Hresult (VDict [("StepIds", VList [VStr "s-1"])]) tt (VStr "s-1") []).
    + vm_compute in Hsent. injection Hsent as <-. reflexivity.
    + reflexivity.
  - apply (Hwords ["spark-submit"; "a"; "b"]).
    + discriminate.
    + repeat constructor; discriminate.
    + reflexivity.
Defined.

(** C6 as the specification states it fails: a tab is whitespace, yet the
    command [a<TAB>b] is submitted as one argument, where a split on
    whitespace gives two. *)
Lemma C6_counterexample :
  exists step,
    snd (snd (submit_step sample_client sample_self "j-1" "n" tab_command None (tt, [])))
    = [AddJobFlowSteps "j-1" [step]] /\
    lookup [Key "HadoopJarStep"; Key "Args"] step = Some (VList [VStr tab_command]) /\
    split_whitespace tab_command = ["a"; "b"] /\
    lookup [Key "HadoopJarStep"; Key "Args"] step
    <> Some (VList (map VStr (split_whitespace tab_command))).
Proof.
  eexists. split; [reflexivity|]. split; [reflexivity|]. split; [reflexivity|].
  discriminate.
Qed.

(** C9.  Called without an action on failure, [submit_step] submits the
    step with [ActionOnFailure] set to CONTINUE. *)
Theorem C9_default_action_on_failure {world : Type}
    (client_emr : request -> world -> result value * world)
    (self : emr_object) (cluster_id name cmd : string) (st : @state world) :
  exists step,
    snd (snd (submit_step client_emr self cluster_id name cmd None st))
    = snd st ++ [AddJobFlowSteps cluster_id [step]] /\
    field "ActionOnFailure" step = Some (VStr "CONTINUE").
Proof.
  exists (step_document self name cmd None).
  split; [apply submit_step_requests | reflexivity].
Qed.

(** C10.  The arguments are the pieces of the command between its space
    characters, and no other character separates: joining them with
    single spaces gives the command back, no argument contains a space,
    and a command without a space is one argument whatever tabs or line
    feeds it holds.  An empty command gives the one argument [""], the
    command [a  b] gives [a], [""], [b], and every command that is empty
    or has two spaces in a row has an empty argument. *)
Theorem C10_split_on_space {world : Type}
    (client_emr : request -> world -> result value * world)
    (self : emr_object) (cluster_id name cmd : string)
    (action_on_failure : option string) (st : @state world) :
  exists step args,
    snd (snd (submit_step client_emr self cluster_id name cmd action_on_failure st))
    = snd st ++ [AddJobFlowSteps cluster_id [step]] /\
    lookup [Key "HadoopJarStep"; Key "Args"] step = Some (VList (map VStr args)) /\
    String.concat " " args = cmd /\
    Forall (fun a => has_char " " a = false) args /\
    (has_char " " cmd = false -> args = [cmd]) /\
    (cmd = "" -> args = [""]) /\
    (cmd = "a  b" -> args = ["a"; ""; "b"]) /\
    (cmd = "" \/ (exists pre post, cmd = (pre ++ "  " ++ post)%string) ->
     In "" args).
Proof.
  exists (step_document self name cmd action_on_failure), (str_split " " cmd).
  split; [apply submit_step_requests|].
  split; [reflexivity|].
  split; [apply str_split_join|].
  split; [apply str_split_pieces|].
  split; [apply str_split_no_sep|].
  split; [intros ->; reflexivity|].
  split; [intros ->; reflexivity|].
  intros [->|(pre & post & ->)]; [left; reflexivity|].
  pose proof (str_split_double " " pre post) as Hin.
  pose proof (str_split_nonempty " " (pre ++ "  " ++ post)) as Hne.
  change (pre ++ String " " (String " " post))%string with (pre ++ "  " ++ post)%string in Hin.
  destruct (str_split " " (pre ++ "  " ++ post)) as [|w ws]; [contradiction|].
  right. exact Hin.
Qed.

Lemma C10_split_on_space_witness :
  (exists step args,
     snd (snd (submit_step sample_client sample_self "j-1" "n" "" None (tt, [])))
     = [AddJobFlowSteps "j-1" [step]] /\
     lookup [Key "HadoopJarStep"; Key "Args"] step = Some (VList (map VStr args)) /\
     args = [""] /\ In "" args) /\
  (exists step args,
     snd (snd (submit_step sample_client sample_self "j-1" "n" "a  b" None (tt, [])))
     = [AddJobFlowSteps "j-1" [step]] /\
     lookup [Key "HadoopJarStep"; Key "Args"] step = Some (VList (map VStr args)) /\
     args = ["a"; ""; "b"] /\ In "" args) /\
  (exists step args,
     snd (snd (submit_step sample_client sample_self "j-1" "n" tab_command None (tt, [])))
     = [AddJobFlowSteps "j-1" [step]] /\
     lookup [Key "HadoopJarStep"; Key "Args"] step = Some (VList (map VStr args)) /\
     args = [tab_command]).
Proof.
  split; [|split].
  - destruct (C10_split_on_space sample_client sample_self "j-1" "n" "" None (tt, []))
      as (step & args & Hsent & Hargs & _ & _ & _ & Hempty & _ & Hin).
    exists step, args. split; [exact Hsent|]. split; [exact Hargs|].
    split; [apply Hempty; reflexivity|]. apply Hin. left. reflexivity.
  - destruct (C10_split_on_space sample_client sample_self "j-1" "n" "a  b" None (tt, []))
      as (step & args & Hsent & Hargs & _ & _ & _ & _ & Hdouble & Hin).
    exists step, args. split; [exact Hsent|]. split; [exact Hargs|].
    split; [apply Hdouble; reflexivity|]. apply Hin. right.
    exists "a", "b". reflexivity.
  - destruct (C10_split_on_space sample_client sample_self "j-1" "n" tab_command None (tt, []))
      as (step & args & Hsent & Hargs & _ & _ & Hnone & _).
    exists step, args. split; [exact Hsent|]. split; [exact Hargs|].
    apply Hnone. reflexivity.
Defined.

(** ** Concrete runs *)

(** One spot-free master: capacities 1 and 0, no launch specification. *)
Example master_fleet_of_sample :
  exists doc fleet,
    _build_cluster_args (create_cluster_locals sample_config) = Ok doc /\
    fleet_entry MASTER doc = Some fleet /\
    field "TargetOnDemandCapacity" fleet = Some (VInt 1) /\
    field "TargetSpotCapacity" fleet = Some (VInt 0) /\
    field "LaunchSpecifications" fleet = None.
Proof. eexists. eexists. repeat split; vm_compute; reflexivity. Qed.

(** [create_cluster] sends the built document and returns the job flow
    id of the response. *)
Example create_cluster_of_sample :
  create_cluster sample_client sample_self sample_config (tt, [])
  = (Ok (VStr "j-1"), (tt, [RunJobFlow (document_of sample_config)])).
Proof. vm_compute. reflexivity. Qed.

(** A service failure passes through [submit_step] unchanged, after the
    request has been sent. *)
Example submit_step_propagates_failure :
  submit_step (fun _ w => (Raise (ServiceError "throttled"), w))
    sample_self "j-1" "n" "ls" None (tt, [])
  = (Raise (ServiceError "throttled"),
     (tt, [AddJobFlowSteps "j-1" [step_document sample_self "n" "ls" None]])).
Proof. reflexivity. Qed.

(** * Further properties of the request builder *)

(** X1.  The six top-level fields are copied from the configuration: the
    name, the log URI, the release label and the visibility flag under
    their own keys, the EC2 role under [JobFlowRole] and the EMR role
    under [ServiceRole]. *)
Theorem X1_required_fields (c : config) :
  exists doc,
    _build_cluster_args (create_cluster_locals c) = Ok doc /\
    field "Name" doc = Some (VStr (cluster_name c)) /\
    field "LogUri" doc = Some (VStr (logging_s3_path c)) /\
    field "ReleaseLabel" doc = Some (VStr (emr_release c)) /\
    field "VisibleToAllUsers" doc = Some (VBool (visible_to_all_users c)) /\
    field "JobFlowRole" doc = Some (VStr (emr_ec2_role c)) /\
    field "ServiceRole" doc = Some (VStr (emr_role c)).
Proof.
  exists (document_of c).
  split; [apply build_cluster_args_closed_form|].
  repeat split; reflexivity.
Qed.

(** X2.  A non-empty list of applications becomes one [Name] record per
    application, in input order. *)
Theorem X2_applications (c : config) (apps : list string) :
  applications c = Some apps ->
  apps <> [] ->
  exists doc,
    _build_cluster_args (create_cluster_locals c) = Ok doc /\
    field "Applications" doc
    = Some (VList (map (fun a => VDict [ ("Name", VStr a) ]) apps)).
Proof.
  intros Happs Hne. exists (document_of c).
  split; [apply build_cluster_args_closed_form|].
  pose proof (section_lookup c SecApplications) as Hlook.
  unfold section_path, section_trigger in Hlook. cbn [lookup] in Hlook.
  rewrite Happs in Hlook. destruct apps as [|a apps]; [contradiction|].
  cbn [nonempty_list list_of] in Hlook. rewrite map_map in Hlook.
  destruct (field "Applications" (document_of c)); [exact Hlook | discriminate Hlook].
Qed.

Lemma X2_applications_witness :
  exists doc,
    _build_cluster_args (create_cluster_locals sample_config) = Ok doc /\
    field "Applications" doc
    = Some (VList [ VDict [ ("Name", VStr "Hadoop") ]; VDict [ ("Name", VStr "Spark") ] ]).
Proof.
  apply (X2_applications sample_config ["Hadoop"; "Spark"]).
  - reflexivity.
  - discriminate.
Defined.

(** X3.  With debugging on, [Steps] is the single step that runs
    [state-pusher-script] through [command-runner.jar] and terminates the
    cluster on failure; with debugging off there is no [Steps] key. *)
Theorem X3_debugging_step (c : config) :
  exists doc,
    _build_cluster_args (create_cluster_locals c) = Ok doc /\
    (debugging c = true ->
     field "Steps" doc
     = Some (VList
         [ VDict [ ("Name", VStr "Setup Hadoop Debugging");
                   ("ActionOnFailure", VStr "TERMINATE_CLUSTER");
                   ("HadoopJarStep",
                    VDict [ ("Jar", VStr "command-runner.jar");
                            ("Args", VList [ VStr "state-pusher-script" ]) ]) ] ])) /\
    (debugging c = false -> field "Steps" doc = None).
Proof.
  exists (document_of c).
  split; [apply build_cluster_args_closed_form|].
  pose proof (section_lookup c SecSteps) as Hlook.
  unfold section_path, section_trigger in Hlook. cbn [lookup] in Hlook.
  split; intros Hd; rewrite Hd in Hlook;
    destruct (field "Steps" (document_of c)); first [exact Hlook | discriminate Hlook | reflexivity].
Qed.

Lemma X3_debugging_step_witness :
  exists doc,
    _build_cluster_args (create_cluster_locals sample_config) = Ok doc /\
    lookup [Key "Steps"; Idx 0; Key "HadoopJarStep"; Key "Jar"] doc
    = Some (VStr "command-runner.jar").
Proof.
  destruct (X3_debugging_step sample_config) as (doc & Hdoc & Hon & _).
  exists doc. split; [exact Hdoc|].
  cbn [lookup]. rewrite (Hon eq_refl). reflexivity.
Defined.

(** X4.  A spot capacity that is zero or negative gives a fleet entry
    without launch specification, and the capacity is still written to
    [TargetSpotCapacity] as given. *)
Theorem X4_non_positive_spot (c : config) (r : role) :
  instance_num_spot r c <= 0 ->
  exists doc fleet,
    _build_cluster_args (create_cluster_locals c) = Ok doc /\
    fleet_entry r doc = Some fleet /\
    field "LaunchSpecifications" fleet = None /\
    field "TargetSpotCapacity" fleet = Some (VInt (instance_num_spot r c)).
Proof.
  intros Hle. exists (document_of c), (fleet_document r c).
  split; [apply build_cluster_args_closed_form|].
  split; [apply fleet_entry_document|].
  split; [|reflexivity].
  rewrite launch_specifications_field.
  destruct (Z.ltb_spec 0 (instance_num_spot r c)) as [Hlt|_]; [|reflexivity].
  exfalso. apply (Z.lt_irrefl 0). eapply Z.lt_le_trans; eassumption.
Qed.

Lemma X4_non_positive_spot_witness :
  exists doc fleet,
    _build_cluster_args (create_cluster_locals (with_spot 1 1 (-3) sample_config)) = Ok doc /\
    fleet_entry TASK doc = Some fleet /\
    field "LaunchSpecifications" fleet = None /\
    field "TargetSpotCapacity" fleet = Some (VInt (-3)).
Proof.
  apply (X4_non_positive_spot (with_spot 1 1 (-3) sample_config) TASK).
  discriminate.
Defined.

Lemma no_dup_keys_sound (l : list string) : no_dup_keys l = true -> NoDup l.
Proof.
  induction l as [|k l IH]; intros H; [constructor|].
  cbn [no_dup_keys] in H. apply andb_prop in H as [Hk Hl].
  constructor; [|exact (IH Hl)].
  intros Hin. apply negb_true_iff in Hk.
  assert (existsb (String.eqb k) l = true) as Hex.
  { apply existsb_exists. exists k. split; [exact Hin | apply String.eqb_refl]. }
  rewrite Hex in Hk. discriminate Hk.
Qed.

Lemma keys_opt_entry (b : bool) k v : map fst (opt_entry b k v) = opt_key b k.
Proof. destruct b; reflexivity. Qed.

Lemma truthy_of_opt_list (o : option (list string)) :
  truthy (of_opt_list o) = nonempty_list o.
Proof. destruct o as [[|a l]|]; reflexivity. Qed.

Lemma is_not_none_of_opt_str (o : option string) :
  is_not_none (of_opt_str o) = is_some o.
Proof. destruct o; reflexivity. Qed.

Lemma is_not_none_of_opt_list (o : option (list string)) :
  is_not_none (of_opt_list o) = is_some o.
Proof. destruct o; reflexivity. Qed.

(** X5.  The keys of the document are the seven fixed ones followed by
    those of the triggered sections, in the order Configurations,
    Applications, BootstrapActions, Steps; the keys of [Instances] are
    the four fixed ones followed by the key pair and security group keys
    that were given.  No key occurs twice and there is no other key. *)
Theorem X5_document_keys (c : config) :
  exists d inst,
    _build_cluster_args (create_cluster_locals c) = Ok (VDict d) /\
    dict_get "Instances" d = Some (VDict inst) /\
    map fst d
    = fixed_top
      ++ opt_key (any_toggle c) "Configurations"
      ++ opt_key (nonempty_list (applications c)) "Applications"
      ++ opt_key (nonempty_list (bootstraps_paths c)) "BootstrapActions"
      ++ opt_key (debugging c) "Steps" /\
    map fst inst
    = fixed_inst
      ++ opt_key (is_some (key_pair_name c)) "Ec2KeyName"
      ++ opt_key (is_some (security_group_master c)) "EmrManagedMasterSecurityGroup"
      ++ opt_key (is_some (security_groups_master_additional c))
           "AdditionalMasterSecurityGroups"
      ++ opt_key (is_some (security_group_slave c)) "EmrManagedSlaveSecurityGroup"
      ++ opt_key (is_some (security_groups_slave_additional c))
           "AdditionalSlaveSecurityGroups"
      ++ opt_key (is_some (security_group_service_access c))
           "ServiceAccessSecurityGroup" /\
    NoDup (map fst d) /\
    NoDup (map fst inst).
Proof.
  eexists. eexists.
  split; [rewrite build_cluster_args_closed_form; unfold document_of, args_shape; reflexivity|].
  split; [reflexivity|].
  assert (Htop : map fst (top_optional c)
                 = opt_key (any_toggle c) "Configurations"
                   ++ opt_key (nonempty_list (applications c)) "Applications"
                   ++ opt_key (nonempty_list (bootstraps_paths c)) "BootstrapActions"
                   ++ opt_key (debugging c) "Steps").
  { unfold top_optional. rewrite !map_app, !keys_opt_entry, !truthy_of_opt_list.
    reflexivity. }
  assert (Hinst : map fst (instances_optional c)
                  = opt_key (is_some (key_pair_name c)) "Ec2KeyName"
                    ++ opt_key (is_some (security_group_master c))
                         "EmrManagedMasterSecurityGroup"
                    ++ opt_key (is_some (security_groups_master_additional c))
                         "AdditionalMasterSecurityGroups"
                    ++ opt_key (is_some (security_group_slave c))
                         "EmrManagedSlaveSecurityGroup"
                    ++ opt_key (is_some (security_groups_slave_additional c))
                         "AdditionalSlaveSecurityGroups"
                    ++ opt_key (is_some (security_group_service_access c))
                         "ServiceAccessSecurityGroup").
  { unfold instances_optional.
    rewrite !map_app, !keys_opt_entry, !is_not_none_of_opt_str, !is_not_none_of_opt_list.
    reflexivity. }
  cbn [map fst]. rewrite Htop, Hinst.
  split; [reflexivity|]. split; [reflexivity|]. split.
  - destruct (any_toggle c), (nonempty_list (applications c)),
      (nonempty_list (bootstraps_paths c)), (debugging c);
      apply no_dup_keys_sound; reflexivity.
  - destruct (is_some (key_pair_name c)), (is_some (security_group_master c)),
      (is_some (security_groups_master_additional c)), (is_some (security_group_slave c)),
      (is_some (security_groups_slave_additional c)),
      (is_some (security_group_service_access c));
      apply no_dup_keys_sound; reflexivity.
Qed.

Lemma field_args_shape_skip k k' (b : bool) v h1 h2 h3 h4 h5 h6 sn fleets itail rest :
  String.eqb k k' = false ->
  field k (args_shape h1 h2 h3 h4 h5 h6 sn fleets itail (opt_entry b k' v ++ rest))
  = field k (args_shape h1 h2 h3 h4 h5 h6 sn fleets itail rest).
Proof.
  intros Hk. unfold args_shape. cbn [field dict_get].
  rewrite dict_get_opt_app, Hk, andb_false_r. reflexivity.
Qed.

(** X8.  The four toggles reach the document through [Configurations]
    alone: replacing them leaves every other top-level key, the whole
    [Instances] block included, as it was. *)
Theorem X8_toggles_only_configurations (c : config) (p s h q : bool) :
  exists doc doc',
    _build_cluster_args (create_cluster_locals c) = Ok doc /\
    _build_cluster_args (create_cluster_locals (with_toggles p s h q c)) = Ok doc' /\
    forall k, k <> "Configurations" -> field k doc' = field k doc.
Proof.
  exists (document_of c), (document_of (with_toggles p s h q c)).
  split; [apply build_cluster_args_closed_form|].
  split; [apply build_cluster_args_closed_form|].
  intros k Hk. apply String.eqb_neq in Hk.
  unfold document_of, top_optional.
  rewrite !(field_args_shape_skip k "Configurations") by exact Hk.
  reflexivity.
Qed.

Lemma X8_toggles_only_configurations_witness :
  exists doc doc',
    _build_cluster_args (create_cluster_locals sample_config) = Ok doc /\
    _build_cluster_args
      (create_cluster_locals (with_toggles false true true false sample_config)) = Ok doc' /\
    field "Instances" doc' = field "Instances" doc.
Proof.
  destruct (X8_toggles_only_configurations sample_config false true true false)
    as (doc & doc' & Hdoc & Hdoc' & Hsame).
  exists doc, doc'. split; [exact Hdoc|]. split; [exact Hdoc'|].
  apply Hsame. discriminate.
Defined.

(** X6.  The builder looks at its keyword dictionary through the
    forty-one parameter names only: two dictionaries that agree on them
    give the same result, whatever their order and whatever else they
    hold. *)
Theorem X6_reads_only_parameters (pars pars' : py_dict) :
  (forall k, In k parameter_names -> dict_get k pars = dict_get k pars') ->
  _build_cluster_args pars = _build_cluster_args pars'.
Proof.
  intros Hsame. apply Forall_forall in Hsame.
  unfold parameter_names in Hsame.
  repeat match type of Hsame with
         | Forall _ (_ :: _) =>
             let H := fresh "Hk" in
             apply Forall_cons_iff in Hsame as [H Hsame]
         end.
  clear Hsame.
  unfold _build_cluster_args, dict_getitem. cbv zeta.
  repeat match goal with
         | H : dict_get _ pars = _ |- _ => rewrite H; clear H
         end.
  reflexivity.
Qed.

(** Keyword order and the [self] that [locals()] adds do not matter. *)
Lemma X6_reads_only_parameters_witness :
  _build_cluster_args (create_cluster_locals sample_config)
  = _build_cluster_args (rev (tl (create_cluster_locals sample_config))).
Proof.
  apply X6_reads_only_parameters.
  intros k Hin. unfold parameter_names in Hin.
  repeat (destruct Hin as [<-|Hin]; [reflexivity|]).
  destruct Hin.
Defined.

Ltac run_to_fleets :=
  rewrite init_shape;
  do 6 run_stmt stage_inst;
  rewrite !py_or_bool; cbn [truthy]; cbv beta iota;
  run_stmt setitem_top; cbn [app];
  do 3 run_stmt cond_append_at;
  rewrite cond_append_at by reflexivity;
  run_stmt cond_section;
  do 2 run_stmt stage_iter;
  run_stmt stage_top.

Ltac run_fleet := run_stmt cond_setitem_fresh; run_stmt append_fleet.

(** X7.  The spot capacities are compared with [0], so a value that is
    not a number in the place of one makes the builder raise a
    [TypeError] instead of returning a document. *)
Theorem X7_non_numeric_spot (c : config) (r : role) (v : value) :
  as_int v = None ->
  _build_cluster_args (dict_set (spot_parameter r) v (create_cluster_locals c))
  = Raise TypeError.
Proof.
  intros Hv. unfold _build_cluster_args, create_cluster_locals.
  destruct r; cbn [spot_parameter dict_set String.eqb Ascii.eqb Bool.eqb];
    cbn [dict_getitem dict_get String.eqb Ascii.eqb Bool.eqb];
    run_to_fleets.
  - unfold py_gt at 1. rewrite Hv. reflexivity.
  - cbn [py_gt as_int]. cbv beta iota. run_fleet.
    unfold py_gt at 1. rewrite Hv. reflexivity.
  - cbn [py_gt as_int]. cbv beta iota. do 2 run_fleet.
    unfold py_gt at 1. rewrite Hv. reflexivity.
Qed.

Lemma X7_non_numeric_spot_witness :
  _build_cluster_args
    (dict_set "instance_num_spot_core" (VStr "2") (create_cluster_locals sample_config))
  = Raise TypeError.
Proof. apply (X7_non_numeric_spot sample_config CORE (VStr "2")). reflexivity. Defined.

(** * Further properties of the client methods *)

Lemma getitem_ok_iff (v : value) (k : string) (x : value) :
  getitem v k = Ok x <-> field k v = Some x.
Proof.
  destruct v; cbn [getitem field]; try (split; discriminate).
  unfold dict_getitem. destruct (dict_get k d); split; intros H;
    first [injection H as <-; reflexivity | discriminate H].
Qed.

(** Three nested subscripts succeed exactly when the path exists. *)
Lemma nested_getitem_lookup (response : value) (k1 k2 k3 : string) (x : value) :
  (a <- getitem response k1 ;; b <- getitem a k2 ;; getitem b k3) = Ok x
  <-> lookup [Key k1; Key k2; Key k3] response = Some x.
Proof.
  cbn [lookup].
  destruct (getitem response k1) as [a|e] eqn:E1.
  - apply getitem_ok_iff in E1. rewrite E1.
    destruct (getitem a k2) as [b|e] eqn:E2.
    + apply getitem_ok_iff in E2. rewrite E2.
      rewrite getitem_ok_iff. destruct (field k3 b); split; intros H; exact H.
    + destruct (field k2 a) as [b|] eqn:F2.
      * apply getitem_ok_iff in F2. rewrite F2 in E2. discriminate E2.
      * split; discriminate.
  - destruct (field k1 response) as [a|] eqn:F1.
    + apply getitem_ok_iff in F1. rewrite F1 in E1. discriminate E1.
    + split; discriminate.
Qed.

(** X14.  [get_cluster_state] sends one [describe_cluster] request for
    the given id.  A failure of the service is passed on; an answer gives
    the state exactly when it has [Cluster], [Status] and [State] nested
    in that order, and an answer without [Cluster] raises a [KeyError]
    for that key. *)
Theorem X14_get_cluster_state {world : Type}
    (client_emr : lifecycle_request -> world -> result value * world)
    (self : emr_object) (cluster_id : string) (st : @lifecycle_state world) :
  snd (snd (get_cluster_state client_emr self cluster_id st))
  = snd st ++ [DescribeCluster cluster_id] /\
  (forall e w',
     client_emr (DescribeCluster cluster_id) (fst st) = (Raise e, w') ->
     fst (get_cluster_state client_emr self cluster_id st) = Raise e) /\
  (forall response w',
     client_emr (DescribeCluster cluster_id) (fst st) = (Ok response, w') ->
     (forall s,
        fst (get_cluster_state client_emr self cluster_id st) = Ok s
        <-> lookup [Key "Cluster"; Key "Status"; Key "State"] response = Some s) /\
     (forall d,
        response = VDict d -> dict_get "Cluster" d = None ->
        fst (get_cluster_state client_emr self cluster_id st)
        = Raise (KeyError "Cluster"))).
Proof.
  unfold get_cluster_state, lifecycle_call.
  destruct (client_emr (DescribeCluster cluster_id) (fst st)) as [[response|e] w] eqn:E.
  - split; [reflexivity|]. split; [intros e w' H; discriminate H|].
    intros response' w' H. injection H as <- <-. cbn [fst]. split.
    + intros s. apply nested_getitem_lookup.
    + intros d -> Hd. cbn [getitem]. unfold dict_getitem. rewrite Hd. reflexivity.
  - split; [reflexivity|]. split; [intros e' w' H; injection H as <- <-; reflexivity|].
    intros response w' H. discriminate H.
Qed.

(** X15.  [get_step_state] sends one [describe_step] request for the
    given cluster and step.  A failure of the service is passed on; an
    answer gives the state exactly when it has [Step], [Status] and
    [State] nested in that order, and an answer without [Step] raises a
    [KeyError] for that key. *)
Theorem X15_get_step_state {world : Type}
    (client_emr : lifecycle_request -> world -> result value * world)
    (self : emr_object) (cluster_id step_id : string) (st : @lifecycle_state world) :
  snd (snd (get_step_state client_emr self cluster_id step_id st))
  = snd st ++ [DescribeStep cluster_id step_id] /\
  (forall e w',
     client_emr (DescribeStep cluster_id step_id) (fst st) = (Raise e, w') ->
     fst (get_step_state client_emr self cluster_id step_id st) = Raise e) /\
  (forall response w',
     client_emr (DescribeStep cluster_id step_id) (fst st) = (Ok response, w') ->
     (forall s,
        fst (get_step_state client_emr self cluster_id step_id st) = Ok s
        <-> lookup [Key "Step"; Key "Status"; Key "State"] response = Some s) /\
     (forall d,
        response = VDict d -> dict_get "Step" d = None ->
        fst (get_step_state client_emr self cluster_id step_id st)
        = Raise (KeyError "Step"))).
Proof.
  unfold get_step_state, lifecycle_call.
  destruct (client_emr (DescribeStep cluster_id step_id) (fst st)) as [[response|e] w] eqn:E.
  - split; [reflexivity|]. split; [intros e w' H; discriminate H|].
    intros response' w' H. injection H as <- <-. cbn [fst]. split.
    + intros s. apply nested_getitem_lookup.
    + intros d -> Hd. cbn [getitem]. unfold dict_getitem. rewrite Hd. reflexivity.
  - split; [reflexivity|]. split; [intros e' w' H; injection H as <- <-; reflexivity|].
    intros response w' H. discriminate H.
Qed.

(** X16.  [terminate_cluster] sends one [terminate_job_flows] request
    whose id list is the given id alone, returns [None] whatever the
    service answers, and passes a failure of the service on. *)
Theorem X16_terminate_cluster {world : Type}
    (client_emr : lifecycle_request -> world -> result value * world)
    (self : emr_object) (cluster_id : string) (st : @lifecycle_state world) :
  snd (snd (terminate_cluster client_emr self cluster_id st))
  = snd st ++ [TerminateJobFlows [cluster_id]] /\
  (forall response w',
     client_emr (TerminateJobFlows [cluster_id]) (fst st) = (Ok response, w') ->
     terminate_cluster client_emr self cluster_id st
     = (Ok VNone, (w', snd st ++ [TerminateJobFlows [cluster_id]]))) /\
  (forall e w',
     client_emr (TerminateJobFlows [cluster_id]) (fst st) = (Raise e, w') ->
     terminate_cluster client_emr self cluster_id st
     = (Raise e, (w', snd st ++ [TerminateJobFlows [cluster_id]]))).
Proof.
  unfold terminate_cluster, lifecycle_call.
  destruct (client_emr (TerminateJobFlows [cluster_id]) (fst st)) as [[response|e] w] eqn:E;
    (split; [reflexivity|]); split; intros x w' H;
    first [discriminate H | injection H as <- <-; reflexivity].
Qed.
Lemma X14_get_cluster_state_witness :
  fst (get_cluster_state sample_lifecycle_client sample_self "j-1" (tt, []))
  = Ok (VStr "WAITING").
Proof.
  destruct (X14_get_cluster_state sample_lifecycle_client sample_self "j-1" (tt, []))
    as (_ & _ & Hok).
  destruct (Hok _ tt eq_refl) as [Hstate _].
  apply Hstate. reflexivity.
Defined.

Lemma X15_get_step_state_witness :
  fst (get_step_state sample_lifecycle_client sample_self "j-1" "s-1" (tt, []))
  = Ok (VStr "COMPLETED").
Proof.
  destruct (X15_get_step_state sample_lifecycle_client sample_self "j-1" "s-1" (tt, []))
    as (_ & _ & Hok).
  destruct (Hok _ tt eq_refl) as [Hstate _].
  apply Hstate. reflexivity.
Defined.

Lemma X16_terminate_cluster_witness :
  terminate_cluster sample_lifecycle_client sample_self "j-1" (tt, [])
  = (Ok VNone, (tt, [TerminateJobFlows ["j-1"]])).
Proof.
  destruct (X16_terminate_cluster sample_lifecycle_client sample_self "j-1" (tt, []))
    as (_ & Hok & _).
  apply (Hok (VDict [ ("ResponseMetadata", VDict []) ]) tt). reflexivity.
Defined.

(** ** Step submission and cluster creation *)

(** X10.  [submit_step] handles no error of its own.  A failure of the
    service passes through unchanged, after the one request has been
    sent; and the answer is read as [response["StepIds"][0]] unguarded,
    so an answer without [StepIds] raises a [KeyError] for that key and
    an answer whose [StepIds] is the empty list raises an [IndexError]. *)
Theorem X10_submit_step_errors {world : Type}
    (client_emr : request -> world -> result value * world)
    (self : emr_object) (cluster_id name cmd : string)
    (action_on_failure : option string) (st : @state world) :
  (forall e w',
     client_emr
       (AddJobFlowSteps cluster_id [step_document self name cmd action_on_failure]) (fst st)
     = (Raise e, w') ->
     submit_step client_emr self cluster_id name cmd action_on_failure st
     = (Raise e,
        (w', snd st ++ [AddJobFlowSteps cluster_id
                          [step_document self name cmd action_on_failure]]))) /\
  (forall d w',
     client_emr
       (AddJobFlowSteps cluster_id [step_document self name cmd action_on_failure]) (fst st)
     = (Ok (VDict d), w') ->
     (dict_get "StepIds" d = None ->
      fst (submit_step client_emr self cluster_id name cmd action_on_failure st)
      = Raise (KeyError "StepIds")) /\
     (dict_get "StepIds" d = Some (VList []) ->
      fst (submit_step client_emr self cluster_id name cmd action_on_failure st)
      = Raise IndexError)).
Proof.
  split.
  - intros e w' Hcall. unfold submit_step, io_bind, call, lift.
    fold (step_document self name cmd action_on_failure).
    rewrite Hcall. reflexivity.
  - intros d w' Hcall.
    rewrite (submit_step_result _ _ _ _ _ _ _ _ _ Hcall).
    cbn [getitem]. unfold dict_getitem.
    split; intros Hd; rewrite Hd; reflexivity.
Qed.

Lemma X10_submit_step_errors_witness :
  submit_step failing_client sample_self "j-1" "n" "ls -l" None (tt, [])
  = (Raise (ServiceError "ThrottlingException"),
     (tt, [AddJobFlowSteps "j-1" [step_document sample_self "n" "ls -l" None]])) /\
  fst (submit_step (fun _ w => (Ok (VDict [ ("StepIds", VList []) ]), w))
         sample_self "j-1" "n" "ls" None (tt, []))
  = Raise IndexError /\
  fst (submit_step (fun _ w => (Ok (VDict []), w))
         sample_self "j-1" "n" "ls" None (tt, []))
  = Raise (KeyError "StepIds").
Proof.
  split; [|split].
  - apply (X10_submit_step_errors failing_client sample_self "j-1" "n" "ls -l" None (tt, [])).
    reflexivity.
  - destruct (X10_submit_step_errors
                (fun _ w => (Ok (VDict [ ("StepIds", VList []) ]), w))
                sample_self "j-1" "n" "ls" None (tt, [])) as [_ Hok].
    destruct (Hok [ ("StepIds", VList []) ] tt eq_refl) as [_ Hempty].
    apply Hempty. reflexivity.
  - destruct (X10_submit_step_errors (fun _ w => (Ok (VDict []), w))
                sample_self "j-1" "n" "ls" None (tt, [])) as [_ Hok].
    destruct (Hok [] tt eq_refl) as [Hmissing _].
    apply Hmissing. reflexivity.
Defined.



(** ** The argument list of a step *)

Lemma count_char_cons ch c s :
  count_char ch (String c s)
  = ((if Ascii.eqb ch c then 1 else 0) + count_char ch s)%nat.
Proof. unfold count_char. cbn [list_ascii_of_string filter]. destruct (Ascii.eqb ch c); reflexivity. Qed.

(** There is one piece more than there are separators. *)
Lemma str_split_length sep s :
  length (str_split sep s) = S (count_char sep s).
Proof.
  induction s as [|c s IH]; [reflexivity|].
  rewrite count_char_cons, (Ascii.eqb_sym sep c). cbn [str_split].
  destruct (Ascii.eqb c sep).
  - cbn [length]. now rewrite IH.
  - pose proof (str_split_nonempty sep s) as Hne.
    destruct (str_split sep s) as [|w ws]; [contradiction|].
    cbn [length] in IH |- *. exact IH.
Qed.

(** Splitting distributes over joining with the separator. *)
Lemma str_split_app sep a b :
  str_split sep (a ++ String sep b)%string = str_split sep a ++ str_split sep b.
Proof.
  induction a as [|c a IH].
  - cbn [append str_split]. now rewrite Ascii.eqb_refl.
  - cbn [append str_split]. rewrite IH.
    pose proof (str_split_nonempty sep a) as Hne.
    destruct (Ascii.eqb c sep); [reflexivity|].
    destruct (str_split sep a) as [|w ws]; [contradiction | reflexivity].
Qed.

(** Pieces free of the separator come back from their join. *)
Lemma str_split_concat sep (pieces : list string) :
  pieces <> [] ->
  Forall (fun p => has_char sep p = false) pieces ->
  str_split sep (String.concat (String sep EmptyString) pieces) = pieces.
Proof.
  intros Hne Hall. induction Hall as [|p ps Hp Hps IH]; [contradiction|].
  destruct ps as [|p' ps].
  - cbn [String.concat]. now apply str_split_no_sep.
  - rewrite concat_cons2. cbn [append]. rewrite str_split_app.
    rewrite (str_split_no_sep _ _ Hp), IH by discriminate. reflexivity.
Qed.

(** X11.  The step has one argument more than the command has space
    characters, so at least one. *)
Theorem X11_argument_count {world : Type}
    (client_emr : request -> world -> result value * world)
    (self : emr_object) (cluster_id name cmd : string)
    (action_on_failure : option string) (st : @state world) :
  exists step args,
    snd (snd (submit_step client_emr self cluster_id name cmd action_on_failure st))
    = snd st ++ [AddJobFlowSteps cluster_id [step]] /\
    lookup [Key "HadoopJarStep"; Key "Args"] step = Some (VList args) /\
    length args = S (count_char " " cmd).
Proof.
  exists (step_document self name cmd action_on_failure), (map VStr (str_split " " cmd)).
  split; [apply submit_step_requests|]. split; [reflexivity|].
  rewrite length_map. apply str_split_length.
Qed.

(** X12.  The arguments of two commands joined by a space are the
    arguments of the first followed by those of the second; so a leading
    space gives an empty first argument and a trailing space an empty
    last one. *)
Theorem X12_arguments_of_joined_commands {world : Type}
    (client_emr : request -> world -> result value * world)
    (self : emr_object) (cluster_id name cmd : string)
    (action_on_failure : option string) (st : @state world) :
  exists step args,
    snd (snd (submit_step client_emr self cluster_id name cmd action_on_failure st))
    = snd st ++ [AddJobFlowSteps cluster_id [step]] /\
    lookup [Key "HadoopJarStep"; Key "Args"] step = Some (VList (map VStr args)) /\
    (forall a b, cmd = (a ++ " " ++ b)%string ->
                 args = str_split " " a ++ str_split " " b) /\
    (forall b, cmd = (" " ++ b)%string -> hd_error args = Some "") /\
    (forall a, cmd = (a ++ " ")%string -> last args "?" = "").
Proof.
  exists (step_document self name cmd action_on_failure), (str_split " " cmd).
  split; [apply submit_step_requests|]. split; [reflexivity|].
  split; [|split].
  - intros a b ->. apply str_split_app.
  - intros b ->. reflexivity.
  - intros a ->. change (a ++ " ")%string with (a ++ String " " "")%string.
    rewrite str_split_app. cbn [str_split]. apply last_last.
Qed.

Lemma X12_arguments_of_joined_commands_witness :
  exists step args,
    snd (snd (submit_step sample_client sample_self "j-1" "n" " ls " None (tt, [])))
    = [AddJobFlowSteps "j-1" [step]] /\
    lookup [Key "HadoopJarStep"; Key "Args"] step = Some (VList (map VStr args)) /\
    args = [""] ++ ["ls"; ""] /\
    hd_error args = Some "" /\
    last args "?" = "".
Proof.
  destruct (X12_arguments_of_joined_commands sample_client sample_self "j-1" "n" " ls " None
              (tt, []))
    as (step & args & Hsent & Hargs & Hjoin & Hlead & Htrail).
  exists step, args. split; [exact Hsent|]. split; [exact Hargs|].
  split; [apply (Hjoin "" "ls "); reflexivity|].
  split; [apply (Hlead "ls "); reflexivity|].
  apply (Htrail " ls"). reflexivity.
Defined.

(** X13.  Arguments that hold no space survive the command line: joined
    by single spaces and submitted, they are the argument list of the
    step, empty arguments included. *)
Theorem X13_arguments_round_trip {world : Type}
    (client_emr : request -> world -> result value * world)
    (self : emr_object) (cluster_id name : string)
    (action_on_failure : option string) (st : @state world) (args : list string) :
  args <> [] ->
  Forall (fun a => has_char " " a = false) args ->
  exists step,
    snd (snd (submit_step client_emr self cluster_id name (String.concat " " args)
                action_on_failure st))
    = snd st ++ [AddJobFlowSteps cluster_id [step]] /\
    lookup [Key "HadoopJarStep"; Key "Args"] step = Some (VList (map VStr args)).
Proof.
  intros Hne Hall.
  exists (step_document self name (String.concat " " args) action_on_failure).
  split; [apply submit_step_requests|].
  cbn [lookup field step_document dict_get String.eqb Ascii.eqb Bool.eqb].
  now rewrite (str_split_concat " " args Hne Hall).
Qed.

Lemma X13_arguments_round_trip_witness :
  exists step,
    snd (snd (submit_step sample_client sample_self "j-1" "n" "spark-submit  job.py" None
                (tt, [])))
    = [AddJobFlowSteps "j-1" [step]] /\
    lookup [Key "HadoopJarStep"; Key "Args"] step
    = Some (VList [VStr "spark-submit"; VStr ""; VStr "job.py"]).
Proof.
  apply (X13_arguments_round_trip sample_client sample_self "j-1" "n" None (tt, [])
           ["spark-submit"; ""; "job.py"]).
  - discriminate.
  - repeat constructor.
Defined.

End EMR.
